(** * Verification of the Orion-LD parallel uploader

    Shallow embedding of [scripts/parallel_upload_to_orion.py].

    Everything the script obtains from the outside (the content of the
    JSON files, the broker's answers, the directory listing, the clock,
    the order in which the futures complete) is read from an explicit
    environment.  Every function returns, next to its value, the list of
    the input/output operations it performed, so that requests, file
    reads and pauses can be counted.  Calls to [logger] and to [tqdm]
    have no influence on control flow and are left out. *)

From Stdlib Require Import ZArith List String Ascii Bool Lia Permutation Sorted.
From Stdlib Require Import DecimalString.
From Stdlib Require Import Floats.SpecFloat.
Import ListNotations.

Set Warnings "-register-all".

Open Scope string_scope.
Open Scope Z_scope.

(** ** Python values and built-ins used by the script *)

Module Py.

(** A Python [float] is an IEEE 754 binary64 number. *)
Definition float : Type := spec_float.
Definition prec : Z := 53.
Definition emax : Z := 1024.

Definition float_of_int (n : Z) : float := binary_normalize prec emax n 0 false.
Definition float_sub (x y : float) : float := SFsub prec emax x y.

Definition float_is_zero (x : float) : bool :=
  match x with
  | S754_zero _ => true
  | _ => false
  end.

Inductive exn : Type :=
| ZeroDivisionError (msg : string)
| ValueError (msg : string).

(** Outcome of a call that may raise. *)
Inductive raising (A : Type) : Type :=
| Raised (e : exn)
| Returned (a : A).
Arguments Raised {A} e.
Arguments Returned {A} a.

(** [x / y] on floats: Python raises on a zero divisor instead of
    producing an infinity or a NaN. *)
Definition float_truediv (x y : float) : raising float :=
  if float_is_zero y then Raised (ZeroDivisionError "float division by zero")
  else Returned (SFdiv prec emax x y).

(** [str(n)] for an [int], as an f-string renders it. *)
Definition str_of_int (n : Z) : string := NilZero.string_of_int (Z.to_int n).

(** [range(n)]: empty when [n <= 0]. *)
Definition range (n : Z) : list Z := map Z.of_nat (seq 0 (Z.to_nat n)).

(** [len(xs)]. *)
Definition len {A : Type} (xs : list A) : Z := Z.of_nat (List.length xs).

(** One bound of a slice [xs[lo:hi]]: negative indices count from the
    end, and the result is clamped to [0 .. len]. *)
Definition slice_bound (n i : Z) : Z :=
  let i' := if i <? 0 then i + n else i in
  if i' <? 0 then 0 else if n <? i' then n else i'.

Definition slice {A : Type} (xs : list A) (lo hi : option Z) : list A :=
  let n := len xs in
  let l := match lo with Some i => slice_bound n i | None => 0 end in
  let h := match hi with Some i => slice_bound n i | None => n end in
  firstn (Z.to_nat (h - l)) (skipn (Z.to_nat l) xs).

(** [s.replace(pat, "")] for a non-empty [pat]: the occurrences of
    [pat] are removed from left to right; [skip] counts the characters
    of the current occurrence that remain to be dropped. *)
Fixpoint remove_from (pat s : string) (skip : nat) : string :=
  match s with
  | EmptyString => EmptyString
  | String c s' =>
      match skip with
      | S k => remove_from pat s' k
      | O =>
          if String.prefix pat s
          then remove_from pat s' (String.length pat - 1)
          else String c (remove_from pat s' 0)
      end
  end.

Definition remove_all (pat s : string) : string := remove_from pat s 0.

(** [os.path.basename(p)]: what follows the last slash. *)
Fixpoint basename_from (p acc : string) : string :=
  match p with
  | EmptyString => acc
  | String c p' =>
      if Ascii.eqb c "/" then basename_from p' EmptyString
      else basename_from p' (acc ++ String c EmptyString)
  end.

Definition basename (p : string) : string := basename_from p EmptyString.

(** [sorted(xs)] on strings, by insertion. *)
Fixpoint insert_sorted (x : string) (xs : list string) : list string :=
  match xs with
  | [] => [x]
  | y :: ys => if String.leb x y then x :: xs else y :: insert_sorted x ys
  end.

Definition sorted (xs : list string) : list string :=
  fold_right insert_sorted [] xs.

End Py.

(** ** JSON documents *)

(** The values [json.load] can return.  [JNull] is Python's [None]. *)
Inductive json : Type :=
| JNull
| JBool (b : bool)
| JInt (n : Z)
| JFloat (x : Py.float)
| JString (s : string)
| JArray (items : list json)
| JObject (members : list (string * json)).

(** Python truthiness of such a value, as tested by [if not entity_data]. *)
Definition truthy (v : json) : bool :=
  match v with
  | JNull => false
  | JBool b => b
  | JInt n => negb (n =? 0)
  | JFloat x => negb (Py.float_is_zero x)
  | JString s => negb (String.eqb s "")
  | JArray items => match items with [] => false | _ :: _ => true end
  | JObject members => match members with [] => false | _ :: _ => true end
  end.

(** ** The environment of one upload task *)

(** What [json.load(open(path))] does. *)
Inductive load_result : Type :=
| LoadRaises (msg : string)
| LoadReturns (v : json).

(** What [urllib.request.urlopen(req)] does for a POST: it returns a
    response object, raises [HTTPError] (whose body can be read and
    decoded, or not), or raises some other exception. *)
Inductive response : Type :=
| Response (status : Z)
| HTTPError (code : Z) (reason : string) (body : option string)
| OtherError (msg : string).

Record TaskEnv : Type := {
  json_load : string -> load_result;
  (** the broker's answer to the request sent in a given iteration *)
  urlopen : Z -> response
}.

(** ** Observable operations *)

Inductive event : Type :=
| EvOpen (file_path : string)
| EvPost (attempt : Z) (url content_type : string) (data : json)
| EvSleep (milliseconds : Z)
| EvGet (url : string).

(** A computation returns a value and the operations it performed. *)
Definition M (A : Type) : Type := (A * list event)%type.

Definition ret {A : Type} (a : A) : M A := (a, []).
Definition bind {A B : Type} (c : M A) (k : A -> M B) : M B :=
  let (a, t1) := c in let (b, t2) := k a in (b, (t1 ++ t2)%list).
Definition tell (e : event) : M unit := (tt, [e]).

Notation "x <- c ;; k" := (bind c (fun x => k))
  (at level 61, c at next level, right associativity).
Notation "c ;;; k" := (bind c (fun _ => k))
  (at level 61, right associativity).

Definition value {A : Type} (c : M A) : A := fst c.
Definition trace {A : Type} (c : M A) : list event := snd c.

Definition is_post (e : event) : bool :=
  match e with EvPost _ _ _ _ => true | _ => false end.
Definition is_open (e : event) : bool :=
  match e with EvOpen _ => true | _ => false end.
Definition is_sleep (e : event) : bool :=
  match e with EvSleep _ => true | _ => false end.

Definition count (p : event -> bool) (t : list event) : nat :=
  List.length (filter p t).

Definition posts (t : list event) : nat := count is_post t.
Definition loads (t : list event) : nat := count is_open t.
Definition sleeps (t : list event) : nat := count is_sleep t.

(** ** Configuration *)

Definition ORION_LD_URL : string := "http://localhost:1026".
Definition NGSI_LD_ENTITIES_ENDPOINT : string := "/ngsi-ld/v1/entities".
Definition CONTENT_TYPE : string := "application/ld+json".
Definition JSON_DIR : string := "../output/json".
Definition MAX_RETRIES : Z := 2.
Definition DEFAULT_MAX_WORKERS : Z := 30.

(** ** [load_json_file] and [upload_entity] *)

(** The triple [(file_path, success, message)] returned by a task. *)
Definition result : Type := (string * bool * string)%type.

Definition http_error_message (code : Z) (reason : string) (body : option string)
  : string :=
  match body with
  | Some error_body =>
      "HTTP error: " ++ Py.str_of_int code ++ " - " ++ reason
        ++ ", Details: " ++ error_body
  | None => "HTTP error: " ++ Py.str_of_int code ++ " - " ++ reason
  end.

(** The POST of [json.dumps(entity_data)] to the entities endpoint made
    in iteration [attempt]. *)
Definition create_request (attempt : Z) (entity_data : json) : event :=
  EvPost attempt (ORION_LD_URL ++ NGSI_LD_ENTITIES_ENDPOINT) CONTENT_TYPE entity_data.

Section Task.

Variable env : TaskEnv.

Definition load_json_file (file_path : string) : M json :=
  tell (EvOpen file_path) ;;;
  match json_load env file_path with
  | LoadReturns v => ret v
  | LoadRaises _ => ret JNull
  end.

(** The body of [for attempt in range(retries)], over the iterations
    that remain; [continue] moves on to the next one. *)
Fixpoint attempt_loop (file_path : string) (entity_data : json) (retries : Z)
         (attempts : list Z) : M result :=
  match attempts with
  | [] => ret (file_path, false, "Max retries exceeded")
  | attempt :: rest =>
      tell (create_request attempt entity_data) ;;;
      match urlopen env attempt with
      | Response status_code =>
          if status_code =? 201 then ret (file_path, true, "Created")
          else ret (file_path, false,
                    "Unexpected status code: " ++ Py.str_of_int status_code)
      | HTTPError code reason body =>
          if code =? 409 then ret (file_path, true, "Already exists")
          else if (code >=? 500) && (attempt <? retries - 1) then
            tell (EvSleep 500) ;;;
            attempt_loop file_path entity_data retries rest
          else ret (file_path, false, http_error_message code reason body)
      | OtherError e =>
          if attempt <? retries - 1 then
            tell (EvSleep 500) ;;;
            attempt_loop file_path entity_data retries rest
          else ret (file_path, false, "Request error: " ++ e)
      end
  end.

Definition upload_entity (file_path : string) (retries : Z) : M result :=
  entity_data <- load_json_file file_path ;;
  if negb (truthy entity_data) then
    ret (file_path, false, "Failed to load entity data")
  else attempt_loop file_path entity_data retries (Py.range retries).

End Task.



(** ** [parallel_upload] *)

(** The counters and the [results] dictionary updated by the loop over
    the completed futures. *)
Record tally : Type := {
  success_count : Z;
  already_exists_count : Z;
  error_count : Z;
  results_success : list string;
  results_already_exists : list string;
  results_error : list (string * string)
}.

Definition empty_tally : tally :=
  {| success_count := 0; already_exists_count := 0; error_count := 0;
     results_success := []; results_already_exists := []; results_error := [] |}.

(** One iteration of [for future in as_completed(future_to_file)]. *)
Definition record_result (st : tally) (r : result) : tally :=
  let '(file_path, success, message) := r in
  let entity_id := Py.remove_all ".json" (Py.basename file_path) in
  if success then
    if String.eqb message "Created" then
      {| success_count := success_count st + 1;
         already_exists_count := already_exists_count st;
         error_count := error_count st;
         results_success := (results_success st ++ [entity_id])%list;
         results_already_exists := results_already_exists st;
         results_error := results_error st |}
    else
      {| success_count := success_count st;
         already_exists_count := already_exists_count st + 1;
         error_count := error_count st;
         results_success := results_success st;
         results_already_exists := (results_already_exists st ++ [entity_id])%list;
         results_error := results_error st |}
  else
    {| success_count := success_count st;
       already_exists_count := already_exists_count st;
       error_count := error_count st + 1;
       results_success := results_success st;
       results_already_exists := results_already_exists st;
       results_error := (results_error st ++ [(entity_id, message)])%list |}.

(** The dictionary returned by [parallel_upload]. *)
Record report : Type := {
  total : Z;
  success : Z;
  already_exists : Z;
  errors : Z;
  error_details : list (string * string)
}.

(** The pool's environment: what the i-th submitted task sees, and the
    order in which [as_completed] hands the futures back (positions in
    submission order). *)
Record PoolEnv : Type := {
  task_env : nat -> TaskEnv;
  completion_order : list nat
}.

(** [executor.submit(upload_entity, file_path)] for every file: one
    future per element of the list, duplicates included, each running
    with the default [retries]. *)
Fixpoint submit_all (env : PoolEnv) (i : nat) (file_list : list string)
  : list (M result) :=
  match file_list with
  | [] => []
  | file_path :: rest =>
      upload_entity (task_env env i) file_path MAX_RETRIES
        :: submit_all env (S i) rest
  end.

Definition as_completed {A : Type} (order : list nat) (futures : list A) : list A :=
  flat_map (fun i => match nth_error futures i with
                     | Some f => [f]
                     | None => []
                     end) order.

(** A completion order hands back every future exactly once. *)
Definition valid_order (env : PoolEnv) (n : nat) : Prop :=
  Permutation (completion_order env) (seq 0 n).

Record pool_run : Type := {
  pool_result : Py.raising report;
  (** the operations of every task, in submission order *)
  pool_traces : list (list event)
}.

Definition parallel_upload (env : PoolEnv) (file_list : list string)
           (max_workers : Z) : pool_run :=
  let total_files := Py.len file_list in
  (* ThreadPoolExecutor refuses a pool without workers *)
  if max_workers <=? 0 then
    {| pool_result := Py.Raised (Py.ValueError "max_workers must be greater than 0");
       pool_traces := [] |}
  else
    let futures := submit_all env 0 file_list in
    let st := fold_left record_result
                        (map value (as_completed (completion_order env) futures))
                        empty_tally in
    {| pool_result :=
         Py.Returned {| total := total_files;
                        success := success_count st;
                        already_exists := already_exists_count st;
                        errors := error_count st;
                        error_details := results_error st |};
       pool_traces := map trace futures |}.

(** ** [check_orion_availability], [get_json_files] and [main] *)

(** What [urlopen] does for [GET /version]: a response with its status
    and the outcome of [json.loads] on its body, or an exception. *)
Inductive version_response : Type :=
| VersionResponse (status : Z) (body : load_result)
| VersionError (msg : string).

Record World : Type := {
  version : version_response;
  (** [glob.glob(os.path.join(JSON_DIR, "*.json"))] *)
  glob_json : list string;
  pool : PoolEnv;
  (** the two readings of [time.time()] *)
  start_time : Py.float;
  end_time : Py.float
}.

(** The parsed command line. *)
Record Args : Type := {
  arg_workers : Z;
  arg_start : option Z;
  arg_end : option Z;
  arg_max : option Z;
  arg_verbose : bool
}.

Definition check_orion_availability (w : World) : M bool :=
  tell (EvGet (ORION_LD_URL ++ "/version")) ;;;
  match version w with
  | VersionResponse status body =>
      if status =? 200 then
        match body with
        | LoadReturns (JObject _) => ret true
        (* json.loads raises, or data.get does on a value that is no dict *)
        | _ => ret false
        end
      else ret false
  | VersionError _ => ret false
  end.

Definition get_json_files (w : World) (start_idx end_idx max_files : option Z)
  : list string :=
  let all_files := Py.sorted (glob_json w) in
  match start_idx, end_idx with
  | Some s, Some e => Py.slice all_files (Some s) (Some e)
  | _, _ =>
      match max_files with
      | Some m => if m =? 0 then all_files else Py.slice all_files None (Some m)
      | None => all_files
      end
  end.

(** The figures of the "UPLOAD SUMMARY" block. *)
Record summary : Type := {
  sum_total : Z;
  sum_created : Z;
  sum_already_existed : Z;
  sum_errors : Z;
  sum_sample_errors : list (string * string);
  sum_more_errors : option Z;
  sum_elapsed : Py.float;
  sum_rate : Py.float
}.

(** How the process ends: [sys.exit], an exception nobody catches, or
    the end of [main]. *)
Inductive termination : Type :=
| Exit (status : Z)
| Uncaught (e : Py.exn)
| Completed (s : summary).

Definition exit_status (t : termination) : Z :=
  match t with
  | Exit status => status
  | Uncaught _ => 1
  | Completed _ => 0
  end.

(** The operations of the tasks of a pool, task after task.  The real
    interleaving is a shuffle of these lists. *)
Definition emit (traces : list (list event)) : M unit := (tt, List.concat traces).

Definition main (w : World) (args : Args) : M termination :=
  available <- check_orion_availability w ;;
  if negb available then ret (Exit 1)
  else
    let json_files := get_json_files w (arg_start args) (arg_end args) (arg_max args) in
    match json_files with
    | [] => ret (Exit 1)
    | _ :: _ =>
        let run := parallel_upload (pool w) json_files (arg_workers args) in
        emit (pool_traces run) ;;;
        match pool_result run with
        | Py.Raised e => ret (Uncaught e)
        | Py.Returned results =>
            let elapsed_time := Py.float_sub (end_time w) (start_time w) in
            match Py.float_truediv (Py.float_of_int (total results)) elapsed_time with
            | Py.Raised e => ret (Uncaught e)
            | Py.Returned rate =>
                ret (Completed
                       {| sum_total := total results;
                          sum_created := success results;
                          sum_already_existed := already_exists results;
                          sum_errors := errors results;
                          sum_sample_errors :=
                            if 0 <? errors results
                            then Py.slice (error_details results) None (Some 5)
                            else [];
                          sum_more_errors :=
                            if (0 <? errors results) && (5 <? errors results)
                            then Some (errors results - 5) else None;
                          sum_elapsed := elapsed_time;
                          sum_rate := rate |})
            end
        end
    end.

(** ** Vocabulary of the statements *)

(** What one iteration of the retry loop does with the broker's answer:
    [Some r] when it returns [r], [None] when it pauses and continues. *)
Definition iteration (env : TaskEnv) (file_path : string) (retries attempt : Z)
  : option result :=
  match urlopen env attempt with
  | Response status_code =>
      Some (if status_code =? 201 then (file_path, true, "Created")
            else (file_path, false,
                  "Unexpected status code: " ++ Py.str_of_int status_code))
  | HTTPError code reason body =>
      if code =? 409 then Some (file_path, true, "Already exists")
      else if (code >=? 500) && (attempt <? retries - 1) then None
      else Some (file_path, false, http_error_message code reason body)
  | OtherError e =>
      if attempt <? retries - 1 then None
      else Some (file_path, false, "Request error: " ++ e)
  end.

(** The answers that end a task in whatever iteration they arrive. *)
Definition final_answer (file_path : string) (r : response) : option result :=
  match r with
  | Response status_code =>
      Some (if status_code =? 201 then (file_path, true, "Created")
            else (file_path, false,
                  "Unexpected status code: " ++ Py.str_of_int status_code))
  | HTTPError code reason body =>
      if code =? 409 then Some (file_path, true, "Already exists")
      else if code >=? 500 then None
      else Some (file_path, false, http_error_message code reason body)
  | OtherError _ => None
  end.

Definition is_5xx (r : response) : bool :=
  match r with
  | HTTPError code _ _ => (500 <=? code) && (code <? 600)
  | _ => false
  end.

Definition is_conflict (r : response) : bool :=
  match r with
  | HTTPError code _ _ => code =? 409
  | _ => false
  end.

Definition path_of (r : result) : string := fst (fst r).
Definition message_of (r : result) : string := snd r.

Definition zero_report : report :=
  {| total := 0; success := 0; already_exists := 0; errors := 0;
     error_details := [] |}.

(** ** Sample environments *)

(** A task environment that gives the same answers every time. *)
Definition constant_env (l : load_result) (r : response) : TaskEnv :=
  {| json_load := fun _ => l; urlopen := fun _ => r |}.

Definition sample_entity : json :=
  JObject [("id", JString "urn:ngsi-ld:Sensor:001"); ("type", JString "Sensor")].

Definition busy_env : TaskEnv :=
  constant_env (LoadReturns sample_entity)
               (HTTPError 503 "Service Unavailable" (Some "busy")).

Definition conflict_env : TaskEnv :=
  constant_env (LoadReturns sample_entity) (HTTPError 409 "Conflict" (Some "")).

Definition created_env : TaskEnv :=
  constant_env (LoadReturns sample_entity) (Response 201).

Definition bad_request_env : TaskEnv :=
  constant_env (LoadReturns sample_entity) (HTTPError 400 "Bad Request" None).


Definition unreadable_env : TaskEnv :=
  constant_env (LoadRaises "Expecting value: line 1 column 1 (char 0)")
               (Response 201).

Definition empty_object_env : TaskEnv :=
  constant_env (LoadReturns (JObject [])) (Response 201).

(** Three documents: the first is created, the second exists already,
    the third meets a broker that always answers 500; they complete in
    the order third, first, second. *)
Definition three_tasks : PoolEnv :=
  {| task_env := fun i =>
       match i with
       | O => created_env
       | S O => conflict_env
       | _ => constant_env (LoadReturns sample_entity)
                           (HTTPError 500 "Internal Server Error" (Some ""))
       end;
     completion_order := [2%nat; 0%nat; 1%nat] |}.

Definition three_files : list string :=
  ["../output/json/A.json"; "../output/json/B.json"; "../output/json/C.json"].

Definition version_ok : version_response :=
  VersionResponse 200 (LoadReturns (JObject [("orionld version", JString "1.4.0")])).

Definition default_args : Args :=
  {| arg_workers := DEFAULT_MAX_WORKERS; arg_start := None; arg_end := None;
     arg_max := None; arg_verbose := false |}.

(** A reading of the clock: 1700000000.0 seconds. *)
Definition some_time : Py.float := Py.float_of_int 1700000000.

(** A run over one unreadable file during which the clock does not
    advance. *)
Definition frozen_clock_world : World :=
  {| version := version_ok;
     glob_json := ["../output/json/e1.json"];
     pool := {| task_env := fun _ => unreadable_env; completion_order := [0%nat] |};
     start_time := some_time;
     end_time := some_time |}.

(** A world whose broker does not answer the version request. *)
Definition offline_world : World :=
  {| version := VersionError "<urlopen error [Errno 111] Connection refused>";
     glob_json := three_files;
     pool := three_tasks;
     start_time := some_time;
     end_time := Py.float_of_int 1700000002 |}.

(** ** Further vocabulary *)

(** The answers after which the loop tries again when iterations remain:
    an HTTP error with a code of 500 or more, or any other exception. *)
Definition retryable (r : response) : bool :=
  match r with
  | Response _ => false
  | HTTPError code _ _ => code >=? 500
  | OtherError _ => true
  end.

(** What the last iteration returns on such an answer. *)
Definition last_failure (file_path : string) (r : response) : result :=
  match r with
  | HTTPError code reason body =>
      (file_path, false, http_error_message code reason body)
  | OtherError e => (file_path, false, "Request error: " ++ e)
  | Response _ => (file_path, false, "")
  end.

Definition succeeded (r : result) : bool := snd (fst r).

(** The three kinds of result the aggregation loop tells apart. *)
Definition is_created (r : result) : bool :=
  succeeded r && String.eqb (message_of r) "Created".
Definition is_already_exists (r : result) : bool :=
  succeeded r && negb (String.eqb (message_of r) "Created").
Definition is_failed (r : result) : bool := negb (succeeded r).

(** The identifier the aggregation loop derives from a path. *)
Definition entity_id (file_path : string) : string :=
  Py.remove_all ".json" (Py.basename file_path).

Definition error_detail (r : result) : string * string :=
  (entity_id (path_of r), message_of r).

Fixpoint has_char (c : ascii) (s : string) : bool :=
  match s with
  | EmptyString => false
  | String c' s' => Ascii.eqb c' c || has_char c s'
  end.

(** The results of the submitted tasks, in submission order. *)
Definition submitted_results (env : PoolEnv) (file_list : list string)
  : list result :=
  map value (submit_all env 0 file_list).

(** The results in the order in which the loop sees them. *)
Definition completed_results (env : PoolEnv) (file_list : list string)
  : list result :=
  map value (as_completed (completion_order env) (submit_all env 0 file_list)).

(** The same tasks, completing in another order. *)
Definition reordered (env : PoolEnv) (order : list nat) : PoolEnv :=
  {| task_env := task_env env; completion_order := order |}.

Definition sum_nat (ns : list nat) : nat := fold_right Nat.add 0%nat ns.

(** The order of [sorted] on file names. *)
Definition name_le (a b : string) : Prop := String.leb a b = true.

(** [m] requests for the iterations [first], [first + 1], ... with a
    pause of half a second after each of them but the last. *)
Fixpoint requests_with_pauses (entity_data : json) (first m : nat) : list event :=
  match m with
  | O => []
  | S m' =>
      create_request (Z.of_nat first) entity_data
        :: match m' with
           | O => []
           | S _ => EvSleep 500 :: requests_with_pauses entity_data (S first) m'
           end
  end.


(** A broker that cannot be reached. *)
Definition refused_env : TaskEnv :=
  constant_env (LoadReturns sample_entity)
               (OtherError "<urlopen error [Errno 111] Connection refused>").

(** A broker that answers 503, then drops the connection, then accepts. *)
Definition recovering_env : TaskEnv :=
  {| json_load := fun _ => LoadReturns sample_entity;
     urlopen := fun attempt =>
       if attempt =? 0 then HTTPError 503 "Service Unavailable" (Some "")
       else if attempt =? 1 then OtherError "timed out"
       else Response 201 |}.

(** The three documents of [three_tasks], two seconds on the clock. *)
Definition three_files_world : World :=
  {| version := version_ok;
     glob_json := ["../output/json/C.json"; "../output/json/A.json";
                   "../output/json/B.json"];
     pool := three_tasks;
     start_time := some_time;
     end_time := Py.float_of_int 1700000002 |}.

(** An available broker and an empty directory. *)
Definition empty_directory_world : World :=
  {| version := version_ok;
     glob_json := [];
     pool := three_tasks;
     start_time := some_time;
     end_time := Py.float_of_int 1700000002 |}.

(** * Properties *)

(** ** The script on concrete inputs *)

Example upload_503_twice :
  upload_entity busy_env "../output/json/e1.json" 2
  = (("../output/json/e1.json", false,
      "HTTP error: 503 - Service Unavailable, Details: busy"),
     [EvOpen "../output/json/e1.json";
      create_request 0 sample_entity;
      EvSleep 500;
      create_request 1 sample_entity]).
Proof. reflexivity. Qed.

Example upload_409 :
  upload_entity conflict_env "../output/json/e1.json" 2
  = (("../output/json/e1.json", true, "Already exists"),
     [EvOpen "../output/json/e1.json"; create_request 0 sample_entity]).
Proof. reflexivity. Qed.

Example upload_no_budget :
  upload_entity busy_env "../output/json/e1.json" 0
  = (("../output/json/e1.json", false, "Max retries exceeded"),
     [EvOpen "../output/json/e1.json"]).
Proof. reflexivity. Qed.

Example entity_id_of_path :
  Py.remove_all ".json" (Py.basename "../output/json/e1.json") = "e1".
Proof. reflexivity. Qed.

Example slice_negative_bounds :
  Py.slice ["a"; "b"; "c"; "d"] (Some (-3)) (Some (-1)) = ["b"; "c"].
Proof. reflexivity. Qed.

Example three_tasks_report :
  pool_result (parallel_upload three_tasks three_files 3)
  = Py.Returned
      {| total := 3; success := 1; already_exists := 1; errors := 1;
         error_details :=
           [("C", "HTTP error: 500 - Internal Server Error, Details: ")] |}.
Proof. reflexivity. Qed.

(** ** Computations and their traces *)

Lemma bind_tell {A : Type} (e : event) (c : M A) :
  (tell e ;;; c) = (value c, e :: trace c).
Proof. destruct c as [a t]. reflexivity. Qed.

Lemma count_nil (p : event -> bool) : count p [] = 0%nat.
Proof. reflexivity. Qed.

Lemma count_cons (p : event -> bool) (e : event) (t : list event) :
  count p (e :: t) = ((if p e then 1 else 0) + count p t)%nat.
Proof. unfold count. simpl. destruct (p e); reflexivity. Qed.

Lemma count_app (p : event -> bool) (t1 t2 : list event) :
  count p (t1 ++ t2)%list = (count p t1 + count p t2)%nat.
Proof. unfold count. rewrite filter_app, length_app. reflexivity. Qed.

(** ** The retry loop, one iteration at a time *)

Section Loop.

Variable env : TaskEnv.
Variable file_path : string.
Variable entity_data : json.
Variable retries : Z.

Local Notation "'loop'" := (attempt_loop env file_path entity_data retries).

Lemma attempt_loop_nil :
  loop [] = ((file_path, false, "Max retries exceeded"), []).
Proof. reflexivity. Qed.

Lemma attempt_loop_cons (attempt : Z) (rest : list Z) :
  loop (attempt :: rest)
  = match iteration env file_path retries attempt with
    | Some r => (r, [create_request attempt entity_data])
    | None =>
        (value (loop rest),
         create_request attempt entity_data :: EvSleep 500 :: trace (loop rest))
    end.
Proof.
  unfold iteration. cbn [attempt_loop]. rewrite bind_tell.
  destruct (urlopen env attempt) as [status | code reason body | e].
  - destruct (status =? 201); reflexivity.
  - destruct (code =? 409); [reflexivity|].
    destruct ((code >=? 500) && (attempt <? retries - 1)); [|reflexivity].
    rewrite bind_tell. reflexivity.
  - destruct (attempt <? retries - 1); [|reflexivity].
    rewrite bind_tell. reflexivity.
Qed.

(** An answer that is final ends the iteration that receives it. *)
Lemma iteration_final (attempt : Z) (r : result) :
  final_answer file_path (urlopen env attempt) = Some r ->
  iteration env file_path retries attempt = Some r.
Proof.
  unfold final_answer, iteration.
  destruct (urlopen env attempt) as [status | code reason body | e];
    [tauto | | discriminate].
  destruct (code =? 409); [tauto|].
  destruct (code >=? 500); [discriminate|]. simpl. tauto.
Qed.

(** The loop never opens a file. *)
Lemma attempt_loop_loads (attempts : list Z) :
  loads (trace (loop attempts)) = 0%nat.
Proof.
  induction attempts as [|attempt rest IH]; [reflexivity|].
  rewrite attempt_loop_cons.
  destruct (iteration env file_path retries attempt); [reflexivity|].
  unfold loads in *. cbn [trace snd].
  rewrite !count_cons. exact IH.
Qed.

(** The request of an iteration whose answer is final is the last
    operation of the loop, and that answer decides the result. *)
Lemma attempt_loop_final_answer (attempts : list Z) (k : Z) (r : result) :
  In (create_request k entity_data) (trace (loop attempts)) ->
  final_answer file_path (urlopen env k) = Some r ->
  value (loop attempts) = r
  /\ exists t, trace (loop attempts) = (t ++ [create_request k entity_data])%list.
Proof.
  intros Hin Hfinal. apply iteration_final in Hfinal.
  induction attempts as [|attempt rest IH].
  - contradiction.
  - rewrite attempt_loop_cons in *.
    destruct (iteration env file_path retries attempt) as [r'|] eqn:Hit.
    + destruct Hin as [Heq | []]. injection Heq as ->.
      split; [cbn; congruence | exists []; reflexivity].
    + destruct Hin as [Heq | [Heq | Hin]].
      * injection Heq as ->. congruence.
      * discriminate.
      * destruct (IH Hin) as [Hv [t Ht]]. split; [exact Hv|].
        exists (create_request attempt entity_data :: EvSleep 500 :: t).
        cbn [trace snd] in *. rewrite Ht. reflexivity.
Qed.


Lemma is_5xx_inv (r : response) :
  is_5xx r = true ->
  exists code reason body, r = HTTPError code reason body /\ 500 <= code < 600.
Proof.
  destruct r as [status | code reason body | e]; try discriminate.
  cbn. intros H. apply andb_true_iff in H. destruct H as [H1 H2].
  exists code, reason, body. split; [reflexivity | lia].
Qed.

(** A server error before the last iteration makes the loop continue. *)
Lemma iteration_5xx_continue (attempt : Z) :
  is_5xx (urlopen env attempt) = true ->
  attempt < retries - 1 ->
  iteration env file_path retries attempt = None.
Proof.
  intros H Hlt. destruct (is_5xx_inv _ H) as [code [reason [body [Hr Hc]]]].
  unfold iteration. rewrite Hr.
  replace (code =? 409) with false by lia.
  replace (code >=? 500) with true by lia.
  replace (attempt <? retries - 1) with true by lia.
  reflexivity.
Qed.

(** In the last iteration it is reported with the broker's own words. *)
Lemma iteration_5xx_last (attempt code : Z) (reason : string) (body : option string) :
  urlopen env attempt = HTTPError code reason body ->
  500 <= code ->
  retries - 1 <= attempt ->
  iteration env file_path retries attempt
  = Some (file_path, false, http_error_message code reason body).
Proof.
  intros Hr Hc Hlast. unfold iteration. rewrite Hr.
  replace (code =? 409) with false by lia.
  replace (attempt <? retries - 1) with false by lia.
  rewrite andb_false_r. reflexivity.
Qed.

(** A broker that answers 5xx to everything is asked once per iteration. *)
Lemma attempt_loop_server_errors (n a : nat) :
  Z.of_nat (a + n) = retries - 1 ->
  (forall j, is_5xx (urlopen env j) = true) ->
  exists code reason body,
    urlopen env (retries - 1) = HTTPError code reason body
    /\ value (loop (map Z.of_nat (seq a (S n))))
       = (file_path, false, http_error_message code reason body)
    /\ posts (trace (loop (map Z.of_nat (seq a (S n))))) = S n
    /\ sleeps (trace (loop (map Z.of_nat (seq a (S n))))) = n.
Proof.
  intros Hlast Hall. revert a Hlast.
  induction n as [|n IH]; intros a Hlast.
  - destruct (is_5xx_inv _ (Hall (retries - 1))) as [code [reason [body [Hr Hc]]]].
    exists code, reason, body. split; [exact Hr|].
    cbn [seq map]. rewrite attempt_loop_cons.
    replace (Z.of_nat a) with (retries - 1) by lia.
    rewrite (iteration_5xx_last _ _ _ _ Hr) by lia.
    repeat split.
  - destruct (IH (S a) ltac:(lia)) as [code [reason [body [Hr [Hv [Hp Hs]]]]]].
    exists code, reason, body. split; [exact Hr|].
    change (seq a (S (S n))) with (a :: seq (S a) (S n)).
    cbn [map]. rewrite attempt_loop_cons.
    rewrite iteration_5xx_continue by (auto; lia).
    cbn [value trace fst snd]. split; [exact Hv|].
    unfold posts, sleeps in *. rewrite !count_cons. cbn [is_post is_sleep create_request].
    split; lia.
Qed.

End Loop.

(** ** One upload task *)

Lemma range_positive (n : Z) :
  1 <= n -> Py.range n = 0 :: map Z.of_nat (seq 1 (Z.to_nat n - 1)).
Proof.
  intros H. unfold Py.range.
  replace (Z.to_nat n) with (S (Z.to_nat n - 1)) at 1 by lia.
  reflexivity.
Qed.

Lemma range_bounds (n k : Z) : In k (Py.range n) -> 0 <= k < n.
Proof.
  unfold Py.range. rewrite in_map_iff. intros [i [<- Hi]].
  apply in_seq in Hi. lia.
Qed.

(** A document that loads to a truthy value is handed to the loop. *)
Lemma upload_entity_loaded (env : TaskEnv) (file_path : string) (retries : Z)
      (v : json) :
  json_load env file_path = LoadReturns v ->
  truthy v = true ->
  upload_entity env file_path retries
  = (value (attempt_loop env file_path v retries (Py.range retries)),
     EvOpen file_path
       :: trace (attempt_loop env file_path v retries (Py.range retries))).
Proof.
  intros Hload Htruthy. unfold upload_entity, load_json_file.
  rewrite Hload. cbn. rewrite Htruthy. cbn.
  destruct (attempt_loop env file_path v retries (Py.range retries)).
  reflexivity.
Qed.

(** Any other document ends the task before the loop. *)
Lemma upload_entity_not_loaded (env : TaskEnv) (file_path : string) (retries : Z) :
  (forall v, json_load env file_path = LoadReturns v -> truthy v = false) ->
  upload_entity env file_path retries
  = ((file_path, false, "Failed to load entity data"), [EvOpen file_path]).
Proof.
  intros H. unfold upload_entity, load_json_file.
  destruct (json_load env file_path) as [msg | v]; cbn; [reflexivity|].
  rewrite (H v eq_refl). reflexivity.
Qed.

(** The task returns the path it was given. *)
Lemma upload_entity_path (env : TaskEnv) (file_path : string) (retries : Z) :
  path_of (value (upload_entity env file_path retries)) = file_path.
Proof.
  assert (Hloop : forall d attempts,
             path_of (value (attempt_loop env file_path d retries attempts))
             = file_path).
  { intros d attempts. induction attempts as [|attempt rest IH]; [reflexivity|].
    rewrite attempt_loop_cons. unfold iteration.
    destruct (urlopen env attempt) as [status | code reason body | e].
    - destruct (status =? 201); reflexivity.
    - destruct (code =? 409); [reflexivity|].
      destruct ((code >=? 500) && (attempt <? retries - 1)); [exact IH | reflexivity].
    - destruct (attempt <? retries - 1); [exact IH | reflexivity]. }
  unfold upload_entity, load_json_file.
  destruct (json_load env file_path) as [msg | v]; cbn; [reflexivity|].
  destruct (truthy v); cbn; [|reflexivity].
  specialize (Hloop v (Py.range retries)).
  destruct (attempt_loop env file_path v retries (Py.range retries)).
  exact Hloop.
Qed.

Lemma http_error_message_not_exhausted (code : Z) (reason : string)
      (body : option string) :
  http_error_message code reason body <> "Max retries exceeded".
Proof. destruct body; cbn; discriminate. Qed.

Lemma is_conflict_final (file_path : string) (r : response) :
  is_conflict r = true ->
  final_answer file_path r = Some (file_path, true, "Already exists").
Proof.
  destruct r as [status | code reason body | e]; try discriminate.
  cbn. intros ->. reflexivity.
Qed.

(** The falsy documents, one by one. *)
Lemma truthy_false_iff (v : json) :
  truthy v = false <->
  v = JNull \/ v = JBool false \/ v = JInt 0
  \/ (exists s, v = JFloat (S754_zero s))
  \/ v = JString "" \/ v = JArray [] \/ v = JObject [].
Proof.
  split.
  - destruct v as [| b | n | x | s | items | members]; cbn; intros H.
    + now left.
    + right; left. now subst.
    + right; right; left. apply negb_false_iff, Z.eqb_eq in H. now subst.
    + right; right; right; left. destruct x; try discriminate. now eexists.
    + do 4 right. left. apply negb_false_iff, String.eqb_eq in H. now subst.
    + do 5 right. left. destruct items; [reflexivity | discriminate].
    + do 6 right. destruct members; [reflexivity | discriminate].
  - intros [-> | [-> | [-> | [[s ->] | [-> | [-> | ->]]]]]]; reflexivity.
Qed.

(** C2 (as amended). A document whose every request is answered with a
    5xx status is, under a retry budget [retries >= 1], requested exactly
    [retries] times with [retries - 1] pauses, and the task fails with
    the message "HTTP error: <code> - <reason>" (followed by the details
    when the body can be read) built from the last answer; the message
    is not "Max retries exceeded". *)
Theorem server_errors_use_whole_budget
        (env : TaskEnv) (file_path : string) (retries : Z) (v : json) :
  json_load env file_path = LoadReturns v ->
  truthy v = true ->
  1 <= retries ->
  (forall attempt, is_5xx (urlopen env attempt) = true) ->
  exists code reason body,
    urlopen env (retries - 1) = HTTPError code reason body
    /\ value (upload_entity env file_path retries)
       = (file_path, false, http_error_message code reason body)
    /\ posts (trace (upload_entity env file_path retries)) = Z.to_nat retries
    /\ sleeps (trace (upload_entity env file_path retries))
       = (Z.to_nat retries - 1)%nat
    /\ message_of (value (upload_entity env file_path retries))
       <> "Max retries exceeded".
Proof.
  intros Hload Htruthy Hbudget Hall.
  rewrite (upload_entity_loaded _ _ _ _ Hload Htruthy).
  assert (Hrange : Py.range retries
                   = map Z.of_nat (seq 0 (S (Z.to_nat retries - 1)))).
  { unfold Py.range. f_equal. f_equal. lia. }
  rewrite Hrange.
  destruct (attempt_loop_server_errors env file_path v retries
              (Z.to_nat retries - 1) 0 ltac:(lia) Hall)
    as [code [reason [body [Hr [Hv [Hp Hs]]]]]].
  exists code, reason, body. cbn [value trace fst snd] in *.
  split; [exact Hr|]. split; [exact Hv|].
  unfold posts, sleeps in *. rewrite !count_cons. cbn [is_post is_sleep].
  rewrite Hp, Hs, Hv. repeat split; try lia.
  apply http_error_message_not_exhausted.
Qed.

Lemma server_errors_use_whole_budget_witness :
  exists code reason body,
    urlopen busy_env (2 - 1) = HTTPError code reason body
    /\ value (upload_entity busy_env "../output/json/e1.json" 2)
       = ("../output/json/e1.json", false, http_error_message code reason body)
    /\ posts (trace (upload_entity busy_env "../output/json/e1.json" 2))
       = Z.to_nat 2
    /\ sleeps (trace (upload_entity busy_env "../output/json/e1.json" 2))
       = (Z.to_nat 2 - 1)%nat
    /\ message_of (value (upload_entity busy_env "../output/json/e1.json" 2))
       <> "Max retries exceeded".
Proof.
  apply (server_errors_use_whole_budget busy_env "../output/json/e1.json" 2
                                        sample_entity).
  - reflexivity.
  - reflexivity.
  - lia.
  - intros attempt. reflexivity.
Defined.

(** C2, as stated, fails: with a budget of 2 and a broker that always
    answers 503 the two requests are made, but the reason reported is
    the HTTP error, not the exhaustion of the retries. *)
Lemma server_errors_reason_counterexample :
  (forall attempt, is_5xx (urlopen busy_env attempt) = true)
  /\ ~ (posts (trace (upload_entity busy_env "../output/json/e1.json" 2)) = 2%nat
        /\ value (upload_entity busy_env "../output/json/e1.json" 2)
           = ("../output/json/e1.json", false, "Max retries exceeded")).
Proof.
  split; [reflexivity|]. intros [_ H]. vm_compute in H. discriminate.
Qed.

(** C3. A document whose requests are answered with 409 ends as
    "Already exists": the task succeeds, the aggregation counts it as
    already existing and not as an error, and a single request is made.
    More generally a 409 received in any iteration is the end of the
    task: its request is the last operation, so nothing is retried. *)
Theorem conflict_ends_task_as_already_exists
        (env : TaskEnv) (file_path : string) (retries : Z) (v : json) :
  json_load env file_path = LoadReturns v ->
  truthy v = true ->
  (1 <= retries ->
   (forall attempt, is_conflict (urlopen env attempt) = true) ->
   upload_entity env file_path retries
   = ((file_path, true, "Already exists"),
      [EvOpen file_path; create_request 0 v])
   /\ posts (trace (upload_entity env file_path retries)) = 1%nat
   /\ forall st,
       already_exists_count
         (record_result st (value (upload_entity env file_path retries)))
       = already_exists_count st + 1
       /\ error_count
            (record_result st (value (upload_entity env file_path retries)))
          = error_count st)
  /\ (forall k,
         In (create_request k v) (trace (upload_entity env file_path retries)) ->
         is_conflict (urlopen env k) = true ->
         value (upload_entity env file_path retries)
         = (file_path, true, "Already exists")
         /\ exists t, trace (upload_entity env file_path retries)
                      = (t ++ [create_request k v])%list).
Proof.
  intros Hload Htruthy.
  rewrite (upload_entity_loaded _ _ _ _ Hload Htruthy). split.
  - intros Hbudget Hall.
    rewrite (range_positive _ Hbudget), attempt_loop_cons.
    rewrite (iteration_final _ _ _ _ _ (is_conflict_final file_path _ (Hall 0))).
    repeat split.
  - intros k Hin Hk. cbn [value trace fst snd] in *.
    destruct Hin as [Heq | Hin]; [discriminate|].
    destruct (attempt_loop_final_answer env file_path v retries _ k _ Hin
                (is_conflict_final file_path _ Hk)) as [Hv [t Ht]].
    split; [exact Hv|]. exists (EvOpen file_path :: t).
    cbn [trace snd] in Ht. rewrite Ht. reflexivity.
Qed.

Lemma conflict_ends_task_as_already_exists_witness :
  upload_entity conflict_env "../output/json/B.json" 2
  = (("../output/json/B.json", true, "Already exists"),
     [EvOpen "../output/json/B.json"; create_request 0 sample_entity])
  /\ posts (trace (upload_entity conflict_env "../output/json/B.json" 2)) = 1%nat.
Proof.
  destruct (conflict_ends_task_as_already_exists
              conflict_env "../output/json/B.json" 2 sample_entity
              eq_refl eq_refl) as [H _].
  destruct (H ltac:(lia) (fun _ => eq_refl)) as [H1 [H2 _]].
  split; [exact H1 | exact H2].
Defined.

(** C4. A 4xx answer other than 409 to the first request makes the task
    fail at once: one request, no pause, and the aggregation counts an
    error. *)
Theorem client_error_fails_on_first_attempt
        (env : TaskEnv) (file_path : string) (retries : Z) (v : json)
        (code : Z) (reason : string) (body : option string) :
  json_load env file_path = LoadReturns v ->
  truthy v = true ->
  1 <= retries ->
  urlopen env 0 = HTTPError code reason body ->
  400 <= code < 500 ->
  code <> 409 ->
  upload_entity env file_path retries
  = ((file_path, false, http_error_message code reason body),
     [EvOpen file_path; create_request 0 v])
  /\ posts (trace (upload_entity env file_path retries)) = 1%nat
  /\ sleeps (trace (upload_entity env file_path retries)) = 0%nat
  /\ forall st,
      error_count (record_result st (value (upload_entity env file_path retries)))
      = error_count st + 1.
Proof.
  intros Hload Htruthy Hbudget Hr Hcode Hne.
  rewrite (upload_entity_loaded _ _ _ _ Hload Htruthy).
  rewrite (range_positive _ Hbudget), attempt_loop_cons.
  assert (Hfinal : final_answer file_path (urlopen env 0)
                   = Some (file_path, false, http_error_message code reason body)).
  { rewrite Hr. cbn.
    replace (code =? 409) with false by lia.
    replace (code >=? 500) with false by lia. reflexivity. }
  rewrite (iteration_final _ _ _ _ _ Hfinal). repeat split.
Qed.

Lemma client_error_fails_on_first_attempt_witness :
  upload_entity bad_request_env "../output/json/e1.json" 2
  = (("../output/json/e1.json", false, "HTTP error: 400 - Bad Request"),
     [EvOpen "../output/json/e1.json"; create_request 0 sample_entity]).
Proof.
  apply (client_error_fails_on_first_attempt
           bad_request_env "../output/json/e1.json" 2 sample_entity
           400 "Bad Request" None);
    try reflexivity; lia.
Defined.

(** C5. When [json.load] raises (file unreadable or malformed) the task
    fails with the message "Failed to load entity data" after a single
    attempt to read the file: no request is sent, nothing is retried,
    and the aggregation counts an error with that reason. *)
Theorem load_failure_is_permanent
        (env : TaskEnv) (file_path : string) (retries : Z) (msg : string) :
  json_load env file_path = LoadRaises msg ->
  upload_entity env file_path retries
  = ((file_path, false, "Failed to load entity data"), [EvOpen file_path])
  /\ loads (trace (upload_entity env file_path retries)) = 1%nat
  /\ posts (trace (upload_entity env file_path retries)) = 0%nat
  /\ sleeps (trace (upload_entity env file_path retries)) = 0%nat
  /\ forall st,
      results_error
        (record_result st (value (upload_entity env file_path retries)))
      = (results_error st
           ++ [(Py.remove_all ".json" (Py.basename file_path),
                "Failed to load entity data")])%list.
Proof.
  intros Hload.
  rewrite upload_entity_not_loaded by (intros v Hv; congruence).
  repeat split.
Qed.

Lemma load_failure_is_permanent_witness :
  upload_entity unreadable_env "../output/json/e1.json" 2
  = (("../output/json/e1.json", false, "Failed to load entity data"),
     [EvOpen "../output/json/e1.json"]).
Proof.
  apply (load_failure_is_permanent
           unreadable_env "../output/json/e1.json" 2
           "Expecting value: line 1 column 1 (char 0)").
  reflexivity.
Defined.

(** C8 (as amended). A task reads its document exactly once, before the
    first request, however many requests it goes on to make. *)
Theorem document_loaded_once_per_task
        (env : TaskEnv) (file_path : string) (retries : Z) :
  loads (trace (upload_entity env file_path retries)) = 1%nat
  /\ exists t, trace (upload_entity env file_path retries) = EvOpen file_path :: t
               /\ loads t = 0%nat.
Proof.
  pose proof (attempt_loop_loads env file_path) as Hloop.
  destruct (json_load env file_path) as [msg | v] eqn:Hload.
  - rewrite upload_entity_not_loaded by (intros v Hv; congruence).
    split; [reflexivity | exists []; split; reflexivity].
  - destruct (truthy v) eqn:Htruthy.
    + rewrite (upload_entity_loaded _ _ _ _ Hload Htruthy).
      cbn [trace snd]. specialize (Hloop v retries (Py.range retries)).
      split.
      * unfold loads in *. rewrite count_cons, Hloop. reflexivity.
      * eexists. split; [reflexivity | exact Hloop].
    + rewrite upload_entity_not_loaded by (intros v' Hv'; congruence).
      split; [reflexivity | exists []; split; reflexivity].
Qed.

(** C8, as stated, fails: against a broker that always answers 503 a
    task with a budget of 2 makes two requests but reads its file once. *)
Lemma load_per_attempt_counterexample :
  posts (trace (upload_entity busy_env "../output/json/e1.json" 2)) = 2%nat
  /\ ~ (loads (trace (upload_entity busy_env "../output/json/e1.json" 2))
        = posts (trace (upload_entity busy_env "../output/json/e1.json" 2))).
Proof.
  split; [reflexivity|]. vm_compute. discriminate.
Qed.

(** C9. A file that parses to a falsy value (an empty object or array,
    zero, [false], [null], the empty string) is treated like a file that
    cannot be loaded: the task fails with "Failed to load entity data"
    and sends no request. *)
Theorem falsy_document_is_load_failure
        (env : TaskEnv) (file_path : string) (retries : Z) (v : json) :
  json_load env file_path = LoadReturns v ->
  truthy v = false ->
  upload_entity env file_path retries
  = ((file_path, false, "Failed to load entity data"), [EvOpen file_path])
  /\ posts (trace (upload_entity env file_path retries)) = 0%nat
  /\ Forall (fun d => truthy d = false)
            [JObject []; JArray []; JInt 0; JFloat (S754_zero false);
             JBool false; JNull; JString ""].
Proof.
  intros Hload Hfalsy.
  rewrite upload_entity_not_loaded by (intros v' Hv'; congruence).
  repeat split. repeat constructor.
Qed.

Lemma falsy_document_is_load_failure_witness :
  upload_entity empty_object_env "../output/json/e1.json" 2
  = (("../output/json/e1.json", false, "Failed to load entity data"),
     [EvOpen "../output/json/e1.json"]).
Proof.
  apply (falsy_document_is_load_failure
           empty_object_env "../output/json/e1.json" 2 (JObject [])).
  - reflexivity.
  - reflexivity.
Defined.



(** ** The pool and the aggregation *)

Lemma submit_all_length (env : PoolEnv) (file_list : list string) (i : nat) :
  List.length (submit_all env i file_list) = List.length file_list.
Proof.
  revert i. induction file_list as [|f rest IH]; intros i; cbn; [reflexivity|].
  now rewrite IH.
Qed.

Lemma submit_all_paths (env : PoolEnv) (file_list : list string) (i : nat) :
  map (fun f => path_of (value f)) (submit_all env i file_list) = file_list.
Proof.
  revert i. induction file_list as [|f rest IH]; intros i; cbn [submit_all map];
    [reflexivity|].
  now rewrite upload_entity_path, IH.
Qed.

(** Handing the futures back in submission order changes nothing. *)
Lemma as_completed_in_order {A : Type} (done futures : list A) :
  flat_map (fun i => match nth_error (done ++ futures)%list i with
                     | Some f => [f]
                     | None => []
                     end)
           (seq (List.length done) (List.length futures))
  = futures.
Proof.
  revert done. induction futures as [|f rest IH]; intros done; [reflexivity|].
  cbn [List.length seq flat_map].
  rewrite nth_error_app2, Nat.sub_diag by lia. cbn [nth_error app].
  f_equal.
  replace (done ++ f :: rest)%list with ((done ++ [f]) ++ rest)%list
    by (rewrite <- app_assoc; reflexivity).
  replace (S (List.length done)) with (List.length (done ++ [f])%list)
    by (rewrite length_app; cbn; lia).
  apply IH.
Qed.

(** Whatever the order of completion, every future is handed back once. *)
Lemma as_completed_permutation {A : Type} (order : list nat) (futures : list A) :
  Permutation order (seq 0 (List.length futures)) ->
  Permutation (as_completed order futures) futures.
Proof.
  intros H. unfold as_completed.
  rewrite (Permutation_flat_map _ H).
  change futures with ([] ++ futures)%list at 1.
  change 0%nat with (@List.length A []).
  rewrite as_completed_in_order. reflexivity.
Qed.

(** Every result moves exactly one counter, and the list of error
    details grows with the error counter. *)
Lemma record_result_counts (st : tally) (r : result) :
  success_count (record_result st r) + already_exists_count (record_result st r)
    + error_count (record_result st r)
  = success_count st + already_exists_count st + error_count st + 1
  /\ Py.len (results_error (record_result st r)) - error_count (record_result st r)
     = Py.len (results_error st) - error_count st.
Proof.
  destruct r as [[file_path ok] message]. unfold record_result, Py.len.
  destruct ok; [destruct (String.eqb message "Created")|]; cbn;
    rewrite ?length_app; cbn; lia.
Qed.

Lemma fold_record_result_counts (rs : list result) (st : tally) :
  let st' := fold_left record_result rs st in
  success_count st' + already_exists_count st' + error_count st'
  = success_count st + already_exists_count st + error_count st + Py.len rs
  /\ Py.len (results_error st') - error_count st'
     = Py.len (results_error st) - error_count st.
Proof.
  revert st. induction rs as [|r rest IH]; intros st; cbn zeta.
  - unfold Py.len. cbn. lia.
  - cbn [fold_left]. specialize (IH (record_result st r)). cbn zeta in IH.
    pose proof (record_result_counts st r) as Hr.
    unfold Py.len in *. cbn [List.length]. lia.
Qed.

(** The report on an empty list of files. *)
Lemma parallel_upload_nil (env : PoolEnv) (max_workers : Z) :
  0 < max_workers ->
  parallel_upload env [] max_workers
  = {| pool_result := Py.Returned zero_report; pool_traces := [] |}.
Proof.
  intros H. unfold parallel_upload.
  replace (max_workers <=? 0) with false by lia.
  cbn [submit_all]. unfold as_completed.
  assert (Hnone : flat_map (fun i => match nth_error (@nil (M result)) i with
                                     | Some f => [f]
                                     | None => []
                                     end) (completion_order env) = []).
  { induction (completion_order env) as [|i rest IH]; [reflexivity|].
    cbn [flat_map]. rewrite IH. destruct i; reflexivity. }
  rewrite Hnone. reflexivity.
Qed.

(** ** The whole run *)

Lemma bind_pair {A B : Type} (a : A) (t : list event) (k : A -> M B) :
  bind (a, t) k = (value (k a), (t ++ trace (k a))%list).
Proof. unfold bind. destruct (k a). reflexivity. Qed.

(** The probe is one GET of the version resource. *)
Lemma check_orion_availability_trace (w : World) :
  check_orion_availability w
  = (value (check_orion_availability w), [EvGet (ORION_LD_URL ++ "/version")]).
Proof.
  unfold check_orion_availability.
  destruct (version w) as [status body | msg]; [|reflexivity].
  destruct (status =? 200); [|reflexivity].
  destruct body as [msg | []]; reflexivity.
Qed.

(** The broker is reported available only on a 200 whose body is a JSON
    object. *)
Lemma check_orion_availability_true (w : World) :
  value (check_orion_availability w) = true <->
  exists members, version w = VersionResponse 200 (LoadReturns (JObject members)).
Proof.
  unfold check_orion_availability. split.
  - destruct (version w) as [status body | msg]; [|discriminate].
    destruct (status =? 200) eqn:Hs; [|discriminate].
    apply Z.eqb_eq in Hs. subst.
    destruct body as [msg | []]; try discriminate.
    intros _. now eexists.
  - intros [members ->]. reflexivity.
Qed.

(** C6. When the probe reports the broker unavailable, the run consists
    of the probe alone: [main] leaves with status 1, no file has been
    read and no request has been posted. *)
Theorem unreachable_broker_aborts_run (w : World) (args : Args) :
  value (check_orion_availability w) = false ->
  main w args = (Exit 1, [EvGet (ORION_LD_URL ++ "/version")])
  /\ exit_status (value (main w args)) <> 0
  /\ posts (trace (main w args)) = 0%nat
  /\ loads (trace (main w args)) = 0%nat.
Proof.
  intros Hprobe.
  assert (Hmain : main w args = (Exit 1, [EvGet (ORION_LD_URL ++ "/version")])).
  { unfold main. rewrite check_orion_availability_trace, Hprobe, bind_pair.
    reflexivity. }
  rewrite Hmain. repeat split. cbn. lia.
Qed.

Lemma unreachable_broker_aborts_run_witness :
  main offline_world default_args = (Exit 1, [EvGet (ORION_LD_URL ++ "/version")])
  /\ exit_status (value (main offline_world default_args)) <> 0
  /\ posts (trace (main offline_world default_args)) = 0%nat
  /\ loads (trace (main offline_world default_args)) = 0%nat.
Proof.
  apply (unreachable_broker_aborts_run offline_world default_args).
  reflexivity.
Defined.

(** The end of a run that reaches the summary: the rate is the float
    quotient of the total by the elapsed time, and the division raises
    when the two readings of the clock leave no time between them. *)
Lemma main_summary (w : World) (args : Args) (r : report) :
  value (check_orion_availability w) = true ->
  get_json_files w (arg_start args) (arg_end args) (arg_max args) <> [] ->
  pool_result
    (parallel_upload (pool w)
       (get_json_files w (arg_start args) (arg_end args) (arg_max args))
       (arg_workers args)) = Py.Returned r ->
  let elapsed_time := Py.float_sub (end_time w) (start_time w) in
  if Py.float_is_zero elapsed_time
  then value (main w args)
       = Uncaught (Py.ZeroDivisionError "float division by zero")
  else exists s,
      value (main w args) = Completed s
      /\ sum_total s = total r
      /\ sum_elapsed s = elapsed_time
      /\ sum_rate s
         = SFdiv Py.prec Py.emax (Py.float_of_int (total r)) elapsed_time.
Proof.
  intros Hprobe Hfiles Hpool. cbn zeta. unfold main.
  rewrite check_orion_availability_trace, Hprobe, bind_pair. cbn [negb].
  destruct (get_json_files w (arg_start args) (arg_end args) (arg_max args))
    as [|f rest] eqn:Hlist; [congruence|].
  unfold emit. rewrite bind_pair, Hpool. unfold Py.float_truediv.
  destruct (Py.float_is_zero (Py.float_sub (end_time w) (start_time w))).
  - reflexivity.
  - eexists. cbn [value fst ret]. split; [reflexivity|]. repeat split.
Qed.

(** C7, the division is not guarded: a run over one unreadable file
    during which the clock does not advance passes the probe, processes
    its file, and then ends with an uncaught [ZeroDivisionError] (exit
    status 1) where the summary should give the rate. *)
Theorem summary_rate_division_unguarded :
  Py.float_sub (end_time frozen_clock_world) (start_time frozen_clock_world)
  = S754_zero false
  /\ pool_result
       (parallel_upload (pool frozen_clock_world)
          (get_json_files frozen_clock_world None None None) DEFAULT_MAX_WORKERS)
     = Py.Returned
         {| total := 1; success := 0; already_exists := 0; errors := 1;
            error_details := [("e1", "Failed to load entity data")] |}
  /\ value (main frozen_clock_world default_args)
     = Uncaught (Py.ZeroDivisionError "float division by zero")
  /\ exit_status (value (main frozen_clock_world default_args)) = 1.
Proof. vm_compute. repeat split. Qed.

(** * Further properties *)

(** ** The retry loop under transient failures *)

Section Retry.

Variable env : TaskEnv.
Variable file_path : string.
Variable entity_data : json.
Variable retries : Z.

Local Notation "'loop'" := (attempt_loop env file_path entity_data retries).
Local Notation "'upto' a n" := (map Z.of_nat (seq a n))
  (at level 10, a at level 9, n at level 9).

Lemma iteration_retryable_continue (attempt : Z) :
  retryable (urlopen env attempt) = true ->
  attempt < retries - 1 ->
  iteration env file_path retries attempt = None.
Proof.
  unfold retryable, iteration.
  destruct (urlopen env attempt) as [status | code reason body | e];
    intros H Hlt; [discriminate | |].
  - replace (code =? 409) with false by lia. rewrite H.
    replace (attempt <? retries - 1) with true by lia. reflexivity.
  - replace (attempt <? retries - 1) with true by lia. reflexivity.
Qed.

Lemma iteration_retryable_last (attempt : Z) :
  retryable (urlopen env attempt) = true ->
  retries - 1 <= attempt ->
  iteration env file_path retries attempt
  = Some (last_failure file_path (urlopen env attempt)).
Proof.
  unfold retryable, iteration, last_failure.
  destruct (urlopen env attempt) as [status | code reason body | e];
    intros H Hlast; [discriminate | |].
  - replace (code =? 409) with false by lia.
    replace (attempt <? retries - 1) with false by lia.
    rewrite andb_false_r. reflexivity.
  - replace (attempt <? retries - 1) with false by lia. reflexivity.
Qed.

(** The loop only continues before the last iteration, and only on a
    retryable answer. *)
Lemma iteration_none_inv (attempt : Z) :
  iteration env file_path retries attempt = None ->
  attempt < retries - 1 /\ retryable (urlopen env attempt) = true.
Proof.
  unfold iteration, retryable.
  destruct (urlopen env attempt) as [status | code reason body | e].
  - discriminate.
  - destruct (code =? 409); [discriminate|].
    destruct (code >=? 500); [|discriminate].
    destruct (attempt <? retries - 1) eqn:Hlt; [|discriminate].
    intros _. split; [lia | reflexivity].
  - destruct (attempt <? retries - 1) eqn:Hlt; [|discriminate].
    intros _. split; [lia | reflexivity].
Qed.

(** No iteration returns the message kept for an exhausted loop. *)
Lemma iteration_message (attempt : Z) (r : result) :
  iteration env file_path retries attempt = Some r ->
  message_of r <> "Max retries exceeded".
Proof.
  unfold iteration.
  destruct (urlopen env attempt) as [status | code reason body | e].
  - destruct (status =? 201); intros [= <-]; cbn [message_of snd append];
      discriminate.
  - destruct (code =? 409); [intros [= <-]; cbn; discriminate|].
    destruct ((code >=? 500) && (attempt <? retries - 1)); [discriminate|].
    intros [= <-]. apply http_error_message_not_exhausted.
  - destruct (attempt <? retries - 1); [discriminate|].
    intros [= <-]. cbn [message_of snd append]. discriminate.
Qed.

(** Retryable answers followed by a final one: the task returns what
    the final answer decides, after one request per answer. *)
Lemma attempt_loop_retry_then_final (n m a : nat) (r : result) :
  (forall i, (a <= i < a + n)%nat ->
             retryable (urlopen env (Z.of_nat i)) = true) ->
  Z.of_nat (a + n) < retries ->
  final_answer file_path (urlopen env (Z.of_nat (a + n))) = Some r ->
  value (loop (upto a (n + S m))) = r
  /\ posts (trace (loop (upto a (n + S m)))) = S n
  /\ sleeps (trace (loop (upto a (n + S m)))) = n.
Proof.
  revert a. induction n as [|n IH]; intros a Hretry Hlt Hfinal.
  - rewrite Nat.add_0_r in Hfinal. cbn [Nat.add seq map].
    rewrite attempt_loop_cons, (iteration_final _ _ _ _ _ Hfinal).
    repeat split.
  - cbn [Nat.add seq map]. rewrite attempt_loop_cons.
    rewrite iteration_retryable_continue by (try apply Hretry; lia).
    destruct (IH (S a)) as [Hv [Hp Hs]].
    + intros i Hi. apply Hretry. lia.
    + lia.
    + replace (S a + n)%nat with (a + S n)%nat by lia. exact Hfinal.
    + cbn [value trace fst snd]. split; [exact Hv|].
      unfold posts, sleeps in *. rewrite !count_cons.
      cbn [is_post is_sleep create_request]. split; lia.
Qed.

(** Retryable answers only: the whole budget is used. *)
Lemma attempt_loop_all_retryable (n a : nat) :
  Z.of_nat (a + n) = retries - 1 ->
  (forall j, retryable (urlopen env j) = true) ->
  value (loop (upto a (S n))) = last_failure file_path (urlopen env (retries - 1))
  /\ posts (trace (loop (upto a (S n)))) = S n
  /\ sleeps (trace (loop (upto a (S n)))) = n.
Proof.
  intros Hlast Hall. revert a Hlast.
  induction n as [|n IH]; intros a Hlast.
  - cbn [seq map]. rewrite attempt_loop_cons.
    rewrite iteration_retryable_last by (auto; lia).
    replace (Z.of_nat a) with (retries - 1) by lia. repeat split.
  - destruct (IH (S a) ltac:(lia)) as [Hv [Hp Hs]].
    change (seq a (S (S n))) with (a :: seq (S a) (S n)).
    cbn [map]. rewrite attempt_loop_cons.
    rewrite iteration_retryable_continue by (auto; lia).
    cbn [value trace fst snd]. split; [exact Hv|].
    unfold posts, sleeps in *. rewrite !count_cons.
    cbn [is_post is_sleep create_request]. split; lia.
Qed.

(** Over the iterations [a .. retries - 1] the loop sends consecutive
    requests, pauses between them and nowhere else, and returns from
    inside an iteration. *)
Lemma attempt_loop_shape (n a : nat) :
  Z.of_nat (a + S n) = retries ->
  exists m,
    (m <= n)%nat
    /\ filter is_post (trace (loop (upto a (S n))))
       = map (fun k => create_request k entity_data) (upto a (S m))
    /\ sleeps (trace (loop (upto a (S n)))) = m
    /\ message_of (value (loop (upto a (S n)))) <> "Max retries exceeded".
Proof.
  revert a. induction n as [|n IH]; intros a Hlast.
  - exists 0%nat. cbn [seq map]. rewrite attempt_loop_cons.
    destruct (iteration env file_path retries (Z.of_nat a)) as [r|] eqn:Hit.
    + repeat split; try lia. exact (iteration_message _ _ Hit).
    + apply iteration_none_inv in Hit. lia.
  - change (seq a (S (S n))) with (a :: seq (S a) (S n)).
    cbn [map]. rewrite attempt_loop_cons.
    destruct (iteration env file_path retries (Z.of_nat a)) as [r|] eqn:Hit.
    + exists 0%nat. repeat split; try lia. exact (iteration_message _ _ Hit).
    + destruct (IH (S a) ltac:(lia)) as [m [Hm [Hposts [Hsleeps Hmsg]]]].
      exists (S m). cbn [value trace fst snd] in *.
      split; [lia|]. split; [|split].
      * cbn [filter is_post create_request]. fold (create_request (Z.of_nat a) entity_data).
        rewrite Hposts. reflexivity.
      * unfold sleeps in *. rewrite !count_cons. cbn [is_sleep create_request]. lia.
      * exact Hmsg.
Qed.

End Retry.

(** ** One upload task, continued *)

Lemma range_upto (n : Z) : Py.range n = map Z.of_nat (seq 0 (Z.to_nat n)).
Proof. reflexivity. Qed.

(** A task that gets through after transient failures: if the first [k]
    answers are server errors or exceptions, [k] is within the budget
    and the next answer is final (a response, a 409 or another 4xx),
    the task returns what that answer decides after [k + 1] requests
    and [k] pauses. *)
Theorem transient_failures_then_final_answer
        (env : TaskEnv) (file_path : string) (retries : Z) (v : json)
        (k : Z) (r : result) :
  json_load env file_path = LoadReturns v ->
  truthy v = true ->
  0 <= k < retries ->
  (forall j, 0 <= j < k -> retryable (urlopen env j) = true) ->
  final_answer file_path (urlopen env k) = Some r ->
  value (upload_entity env file_path retries) = r
  /\ posts (trace (upload_entity env file_path retries)) = S (Z.to_nat k)
  /\ sleeps (trace (upload_entity env file_path retries)) = Z.to_nat k.
Proof.
  intros Hload Htruthy Hk Hretry Hfinal.
  rewrite (upload_entity_loaded _ _ _ _ Hload Htruthy), range_upto.
  replace (Z.to_nat retries)
    with (Z.to_nat k + S (Z.to_nat retries - Z.to_nat k - 1))%nat by lia.
  destruct (attempt_loop_retry_then_final env file_path v retries
              (Z.to_nat k) (Z.to_nat retries - Z.to_nat k - 1) 0 r)
    as [Hv [Hp Hs]].
  - intros i Hi. apply Hretry. lia.
  - lia.
  - cbn [Nat.add]. rewrite Z2Nat.id by lia. exact Hfinal.
  - cbn [value trace fst snd]. split; [exact Hv|].
    unfold posts, sleeps in *. rewrite !count_cons. cbn [is_post is_sleep].
    split; lia.
Qed.

Lemma transient_failures_then_final_answer_witness :
  value (upload_entity recovering_env "../output/json/e1.json" 3)
  = ("../output/json/e1.json", true, "Created")
  /\ posts (trace (upload_entity recovering_env "../output/json/e1.json" 3))
     = S (Z.to_nat 2)
  /\ sleeps (trace (upload_entity recovering_env "../output/json/e1.json" 3))
     = Z.to_nat 2.
Proof.
  apply (transient_failures_then_final_answer
           recovering_env "../output/json/e1.json" 3 sample_entity 2).
  - reflexivity.
  - reflexivity.
  - lia.
  - intros j Hj. assert (Hcases : j = 0 \/ j = 1) by lia.
    destruct Hcases as [-> | ->]; reflexivity.
  - reflexivity.
Defined.

(** A broker that fails every request in a retryable way (5xx or an
    exception such as a refused connection) is asked exactly [retries]
    times, with a pause between two requests, and the task fails with
    the text of the last failure: "HTTP error: ..." or "Request error:
    ...". *)
Theorem transient_failures_use_whole_budget
        (env : TaskEnv) (file_path : string) (retries : Z) (v : json) :
  json_load env file_path = LoadReturns v ->
  truthy v = true ->
  1 <= retries ->
  (forall attempt, retryable (urlopen env attempt) = true) ->
  value (upload_entity env file_path retries)
  = last_failure file_path (urlopen env (retries - 1))
  /\ succeeded (value (upload_entity env file_path retries)) = false
  /\ posts (trace (upload_entity env file_path retries)) = Z.to_nat retries
  /\ sleeps (trace (upload_entity env file_path retries))
     = (Z.to_nat retries - 1)%nat.
Proof.
  intros Hload Htruthy Hbudget Hall.
  rewrite (upload_entity_loaded _ _ _ _ Hload Htruthy).
  assert (Hrange : Py.range retries
                   = map Z.of_nat (seq 0 (S (Z.to_nat retries - 1)))).
  { unfold Py.range. f_equal. f_equal. lia. }
  rewrite Hrange.
  destruct (attempt_loop_all_retryable env file_path v retries
              (Z.to_nat retries - 1) 0 ltac:(lia) Hall) as [Hv [Hp Hs]].
  cbn [value trace fst snd]. split; [exact Hv|]. split.
  - rewrite Hv. specialize (Hall (retries - 1)). unfold retryable in Hall.
    destruct (urlopen env (retries - 1)); [discriminate | reflexivity | reflexivity].
  - unfold posts, sleeps in *. rewrite !count_cons. cbn [is_post is_sleep].
    split; lia.
Qed.

Lemma transient_failures_use_whole_budget_witness :
  value (upload_entity refused_env "../output/json/e1.json" 2)
  = ("../output/json/e1.json", false,
     "Request error: <urlopen error [Errno 111] Connection refused>")
  /\ succeeded (value (upload_entity refused_env "../output/json/e1.json" 2))
     = false
  /\ posts (trace (upload_entity refused_env "../output/json/e1.json" 2))
     = Z.to_nat 2
  /\ sleeps (trace (upload_entity refused_env "../output/json/e1.json" 2))
     = (Z.to_nat 2 - 1)%nat.
Proof.
  apply (transient_failures_use_whole_budget
           refused_env "../output/json/e1.json" 2 sample_entity).
  - reflexivity.
  - reflexivity.
  - lia.
  - intros attempt. reflexivity.
Defined.



Lemma requests_with_pauses_counts (entity_data : json) (m first : nat) :
  posts (requests_with_pauses entity_data first m) = m
  /\ sleeps (requests_with_pauses entity_data first m) = (m - 1)%nat
  /\ loads (requests_with_pauses entity_data first m) = 0%nat
  /\ filter is_post (requests_with_pauses entity_data first m)
     = map (fun k => create_request k entity_data) (map Z.of_nat (seq first m)).
Proof.
  revert first. induction m as [|m IH]; intros first; [repeat split|].
  destruct m as [|m].
  - repeat split.
  - destruct (IH (S first)) as [Hp [Hs [Hl Hf]]].
    change (requests_with_pauses entity_data first (S (S m)))
      with (create_request (Z.of_nat first) entity_data
              :: EvSleep 500 :: requests_with_pauses entity_data (S first) (S m)).
    unfold posts, sleeps, loads in *. rewrite !count_cons.
    cbn [is_post is_sleep is_open create_request filter].
    fold (create_request (Z.of_nat first) entity_data).
    rewrite Hp, Hs, Hl, Hf. repeat split; lia.
Qed.

(** Over the iterations [a .. retries - 1] the trace of the loop is a
    run of requests with a pause after each but the last. *)
Lemma attempt_loop_trace (env : TaskEnv) (file_path : string)
      (entity_data : json) (retries : Z) (n a : nat) :
  Z.of_nat (a + S n) = retries ->
  exists m,
    (m <= n)%nat
    /\ trace (attempt_loop env file_path entity_data retries
                           (map Z.of_nat (seq a (S n))))
       = requests_with_pauses entity_data a (S m).
Proof.
  revert a. induction n as [|n IH]; intros a Hlast.
  - exists 0%nat. split; [lia|]. cbn [seq map]. rewrite attempt_loop_cons.
    destruct (iteration env file_path retries (Z.of_nat a)) as [r|] eqn:Hit;
      [reflexivity|].
    apply iteration_none_inv in Hit. lia.
  - change (seq a (S (S n))) with (a :: seq (S a) (S n)).
    cbn [map]. rewrite attempt_loop_cons.
    destruct (iteration env file_path retries (Z.of_nat a)) as [r|] eqn:Hit.
    + exists 0%nat. split; [lia | reflexivity].
    + destruct (IH (S a) ltac:(lia)) as [m [Hm Ht]].
      exists (S m). split; [lia|]. cbn [trace snd]. cbn [trace snd] in Ht.
      rewrite Ht. reflexivity.
Qed.

(** The whole trace of a task. *)
Lemma upload_entity_trace (env : TaskEnv) (file_path : string) (retries : Z) :
  exists m : nat,
    (m <= Z.to_nat retries)%nat
    /\ (forall v, json_load env file_path = LoadReturns v ->
                  trace (upload_entity env file_path retries)
                  = EvOpen file_path :: requests_with_pauses v 0 m)
    /\ (forall msg, json_load env file_path = LoadRaises msg ->
                    m = 0%nat
                    /\ trace (upload_entity env file_path retries)
                       = [EvOpen file_path]).
Proof.
  destruct (json_load env file_path) as [msg | v] eqn:Hload.
  - exists 0%nat. split; [lia|]. split; [discriminate|].
    intros _ _. split; [reflexivity|].
    now rewrite upload_entity_not_loaded by (intros v Hv; congruence).
  - destruct (truthy v) eqn:Htruthy.
    + rewrite (upload_entity_loaded _ _ _ _ Hload Htruthy), range_upto.
      cbn [trace snd].
      destruct (Z.to_nat retries) as [|n] eqn:Hn.
      * exists 0%nat. split; [lia|]. split; [|discriminate].
        intros v' [= <-]. reflexivity.
      * destruct (attempt_loop_trace env file_path v retries n 0 ltac:(lia))
          as [m [Hm Ht]].
        exists (S m). split; [lia|]. split; [|discriminate].
        intros v' [= <-]. now rewrite Ht.
    + exists 0%nat. split; [lia|]. split; [|discriminate].
      intros v' [= <-].
      now rewrite upload_entity_not_loaded by (intros v' Hv'; congruence).
Qed.

(** Whatever the broker answers, a task never sends more requests than
    its budget.  After reading its file it sends the requests of the
    iterations 0, 1, ... in order, each carrying the document that was
    loaded, with one pause of half a second between two consecutive
    requests and none after the last one; it does nothing else. *)
Theorem requests_stay_within_budget
        (env : TaskEnv) (file_path : string) (retries : Z) :
  exists m : nat,
    (m <= Z.to_nat retries)%nat
    /\ (forall v, json_load env file_path = LoadReturns v ->
                  trace (upload_entity env file_path retries)
                  = EvOpen file_path :: requests_with_pauses v 0 m)
    /\ (forall msg, json_load env file_path = LoadRaises msg ->
                    trace (upload_entity env file_path retries)
                    = [EvOpen file_path])
    /\ posts (trace (upload_entity env file_path retries)) = m
    /\ sleeps (trace (upload_entity env file_path retries)) = (m - 1)%nat
    /\ forall v, json_load env file_path = LoadReturns v ->
                 filter is_post (trace (upload_entity env file_path retries))
                 = map (fun k => create_request k v) (map Z.of_nat (seq 0 m)).
Proof.
  destruct (upload_entity_trace env file_path retries) as [m [Hm [Hok Hbad]]].
  exists m. split; [exact Hm|]. split; [exact Hok|].
  split; [intros msg Hmsg; exact (proj2 (Hbad msg Hmsg))|].
  destruct (json_load env file_path) as [msg | v] eqn:Hload.
  - destruct (Hbad msg eq_refl) as [-> ->].
    split; [reflexivity|]. split; [reflexivity|]. discriminate.
  - rewrite (Hok v eq_refl).
    destruct (requests_with_pauses_counts v m 0) as [Hp [Hs [_ Hf]]].
    unfold posts, sleeps in *. rewrite !count_cons. cbn [is_post is_sleep].
    split; [lia|]. split; [lia|].
    intros v' [= <-]. cbn [filter is_post]. exact Hf.
Qed.


(** The message "Max retries exceeded" is what a task returns when its
    budget is empty, and only then: with a budget of one or more, as
    with the default budget, no task ever returns it. *)
Theorem max_retries_exceeded_iff_no_budget
        (env : TaskEnv) (file_path : string) (retries : Z) :
  message_of (value (upload_entity env file_path retries)) = "Max retries exceeded"
  <-> retries <= 0
      /\ exists v, json_load env file_path = LoadReturns v /\ truthy v = true.
Proof.
  split.
  - destruct (json_load env file_path) as [msg | v] eqn:Hload.
    + rewrite upload_entity_not_loaded by (intros v Hv; congruence).
      cbn. discriminate.
    + destruct (truthy v) eqn:Htruthy.
      * rewrite (upload_entity_loaded _ _ _ _ Hload Htruthy), range_upto.
        cbn [value fst]. intros Hmsg. split; [|now exists v].
        destruct (Z.to_nat retries) as [|n] eqn:Hn; [lia|].
        destruct (attempt_loop_shape env file_path v retries n 0 ltac:(lia))
          as [m [_ [_ [_ Hne]]]].
        contradiction.
      * rewrite upload_entity_not_loaded by (intros v' Hv'; congruence).
        cbn. discriminate.
  - intros [Hbudget [v [Hload Htruthy]]].
    rewrite (upload_entity_loaded _ _ _ _ Hload Htruthy), range_upto.
    replace (Z.to_nat retries) with 0%nat by lia. reflexivity.
Qed.

Section Success.

Variable env : TaskEnv.
Variable file_path : string.
Variable entity_data : json.
Variable retries : Z.

Local Notation "'loop'" := (attempt_loop env file_path entity_data retries).

(** An iteration that returns a success has received a 201 or a 409. *)
Lemma iteration_success (attempt : Z) (r : result) :
  iteration env file_path retries attempt = Some r ->
  succeeded r = true ->
  (urlopen env attempt = Response 201 /\ r = (file_path, true, "Created"))
  \/ (is_conflict (urlopen env attempt) = true
      /\ r = (file_path, true, "Already exists")).
Proof.
  unfold iteration, is_conflict.
  destruct (urlopen env attempt) as [status | code reason body | e].
  - destruct (status =? 201) eqn:Hs; intros [= <-]; [|discriminate].
    intros _. left. apply Z.eqb_eq in Hs. now subst.
  - destruct (code =? 409); [intros [= <-] _; now right|].
    destruct ((code >=? 500) && (attempt <? retries - 1)); [discriminate|].
    intros [= <-]. discriminate.
  - destruct (attempt <? retries - 1); [discriminate|].
    intros [= <-]. discriminate.
Qed.

Lemma attempt_loop_success (attempts : list Z) :
  succeeded (value (loop attempts)) = true ->
  exists k,
    In k attempts
    /\ ((urlopen env k = Response 201
         /\ value (loop attempts) = (file_path, true, "Created"))
        \/ (is_conflict (urlopen env k) = true
            /\ value (loop attempts) = (file_path, true, "Already exists")))
    /\ exists t, trace (loop attempts) = (t ++ [create_request k entity_data])%list.
Proof.
  induction attempts as [|attempt rest IH].
  - discriminate.
  - rewrite attempt_loop_cons.
    destruct (iteration env file_path retries attempt) as [r|] eqn:Hit.
    + cbn [value trace fst snd]. intros Hok. exists attempt.
      split; [now left|]. split; [exact (iteration_success _ _ Hit Hok)|].
      exists []. reflexivity.
    + cbn [value trace fst snd]. intros Hok.
      destruct (IH Hok) as [k [Hin [Hcases [t Ht]]]].
      exists k. split; [now right|]. split; [exact Hcases|].
      exists (create_request attempt entity_data :: EvSleep 500 :: t).
      rewrite Ht. reflexivity.
Qed.

End Success.

(** A task reports success only for a request that was answered 201
    (message "Created") or 409 (message "Already exists"), and that
    request is the last thing the task did. *)
Theorem success_means_201_or_409
        (env : TaskEnv) (file_path : string) (retries : Z) :
  succeeded (value (upload_entity env file_path retries)) = true ->
  exists k v,
    0 <= k < retries
    /\ json_load env file_path = LoadReturns v
    /\ ((urlopen env k = Response 201
         /\ value (upload_entity env file_path retries)
            = (file_path, true, "Created"))
        \/ (is_conflict (urlopen env k) = true
            /\ value (upload_entity env file_path retries)
               = (file_path, true, "Already exists")))
    /\ exists t, trace (upload_entity env file_path retries)
                 = (t ++ [create_request k v])%list.
Proof.
  destruct (json_load env file_path) as [msg | v] eqn:Hload.
  - rewrite upload_entity_not_loaded by (intros v Hv; congruence). discriminate.
  - destruct (truthy v) eqn:Htruthy.
    + rewrite (upload_entity_loaded _ _ _ _ Hload Htruthy).
      cbn [value trace fst snd]. intros Hok.
      destruct (attempt_loop_success _ _ _ _ _ Hok) as [k [Hin [Hcases [t Ht]]]].
      exists k, v. split; [exact (range_bounds _ _ Hin)|].
      split; [reflexivity|]. split; [exact Hcases|].
      exists (EvOpen file_path :: t). rewrite Ht. reflexivity.
    + rewrite upload_entity_not_loaded by (intros v' Hv'; congruence).
      discriminate.
Qed.

Lemma success_means_201_or_409_witness :
  exists k v,
    0 <= k < 3
    /\ json_load recovering_env "../output/json/e1.json" = LoadReturns v
    /\ ((urlopen recovering_env k = Response 201
         /\ value (upload_entity recovering_env "../output/json/e1.json" 3)
            = ("../output/json/e1.json", true, "Created"))
        \/ (is_conflict (urlopen recovering_env k) = true
            /\ value (upload_entity recovering_env "../output/json/e1.json" 3)
               = ("../output/json/e1.json", true, "Already exists")))
    /\ exists t, trace (upload_entity recovering_env "../output/json/e1.json" 3)
                 = (t ++ [create_request k v])%list.
Proof.
  apply (success_means_201_or_409 recovering_env "../output/json/e1.json" 3).
  reflexivity.
Defined.

(** ** The pool and the aggregation, continued *)

Lemma filter_length_permutation {A : Type} (p : A -> bool) (l l' : list A) :
  Permutation l l' -> List.length (filter p l) = List.length (filter p l').
Proof.
  induction 1 as [| x l l' _ IH | x y l | l l' l'' _ IH1 _ IH2]; cbn.
  - reflexivity.
  - destruct (p x); cbn; now rewrite IH.
  - destruct (p x), (p y); reflexivity.
  - now rewrite IH1.
Qed.

(** What the loop has accumulated after a list of results. *)
Lemma fold_record_result_kinds (rs : list result) (st : tally) :
  let st' := fold_left record_result rs st in
  success_count st' = success_count st + Py.len (filter is_created rs)
  /\ already_exists_count st'
     = already_exists_count st + Py.len (filter is_already_exists rs)
  /\ error_count st' = error_count st + Py.len (filter is_failed rs)
  /\ results_error st'
     = (results_error st ++ map error_detail (filter is_failed rs))%list.
Proof.
  revert st. induction rs as [|r rest IH]; intros st; cbn zeta.
  - unfold Py.len. cbn. rewrite app_nil_r. repeat split; lia.
  - cbn [fold_left]. specialize (IH (record_result st r)). cbn zeta in IH.
    destruct IH as [H1 [H2 [H3 H4]]]. rewrite H1, H2, H3, H4.
    destruct r as [[p ok] m].
    unfold is_created, is_already_exists, is_failed, succeeded, message_of,
      record_result, error_detail, entity_id, path_of, Py.len.
    cbn [fst snd filter].
    destruct ok; [destruct (String.eqb m "Created")|];
      cbn [negb andb filter map List.length success_count already_exists_count
           error_count results_error fst snd];
      rewrite <- ?app_assoc; repeat split; try reflexivity; lia.
Qed.

Lemma count_concat (p : event -> bool) (ts : list (list event)) :
  count p (List.concat ts) = sum_nat (map (count p) ts).
Proof.
  induction ts as [|t rest IH]; [reflexivity|].
  cbn [List.concat map sum_nat fold_right]. rewrite count_app. fold (sum_nat (map (count p) rest)).
  now rewrite IH.
Qed.

Lemma submit_all_ext (e env : PoolEnv) (file_list : list string) (i : nat) :
  task_env e = task_env env ->
  submit_all e i file_list = submit_all env i file_list.
Proof.
  intros Htasks. revert i.
  induction file_list as [|f rest IH]; intros i; [reflexivity|].
  cbn [submit_all]. now rewrite Htasks, IH.
Qed.

Lemma completed_results_permutation (env : PoolEnv) (file_list : list string) :
  valid_order env (List.length file_list) ->
  Permutation (completed_results env file_list) (submitted_results env file_list).
Proof.
  intros Horder. unfold completed_results, submitted_results.
  apply Permutation_map, as_completed_permutation.
  now rewrite submit_all_length.
Qed.

(** The counters of the report do not depend on the order in which the
    tasks complete: [success] is the number of submitted files whose
    task returned "Created", [already_exists] the number whose task
    succeeded otherwise, [errors] the number whose task failed; two
    runs of the same tasks that complete in different orders report the
    same counters. *)
Theorem report_counts_by_kind
        (env : PoolEnv) (file_list : list string) (max_workers : Z) :
  0 < max_workers ->
  valid_order env (List.length file_list) ->
  exists r,
    pool_result (parallel_upload env file_list max_workers) = Py.Returned r
    /\ success r = Py.len (filter is_created (submitted_results env file_list))
    /\ already_exists r
       = Py.len (filter is_already_exists (submitted_results env file_list))
    /\ errors r = Py.len (filter is_failed (submitted_results env file_list))
    /\ forall order r',
        Permutation order (seq 0 (List.length file_list)) ->
        pool_result (parallel_upload (reordered env order) file_list max_workers)
        = Py.Returned r' ->
        total r' = total r /\ success r' = success r
        /\ already_exists r' = already_exists r /\ errors r' = errors r.
Proof.
  intros Hworkers Horder.
  assert (Hcounts : forall e,
             valid_order e (List.length file_list) ->
             task_env e = task_env env ->
             exists r,
               pool_result (parallel_upload e file_list max_workers) = Py.Returned r
               /\ total r = Py.len file_list
               /\ success r
                  = Py.len (filter is_created (submitted_results env file_list))
               /\ already_exists r
                  = Py.len (filter is_already_exists
                                   (submitted_results env file_list))
               /\ errors r
                  = Py.len (filter is_failed (submitted_results env file_list))).
  { intros e He Htasks.
    assert (Hsame : submitted_results e file_list = submitted_results env file_list).
    { unfold submitted_results. f_equal. apply submit_all_ext. exact Htasks. }
    pose proof (completed_results_permutation e file_list He) as Hperm.
    rewrite Hsame in Hperm.
    unfold parallel_upload. replace (max_workers <=? 0) with false by lia.
    eexists. split; [reflexivity|].
    cbn [total success already_exists errors].
    fold (completed_results e file_list).
    destruct (fold_record_result_kinds (completed_results e file_list) empty_tally)
      as [H1 [H2 [H3 _]]].
    cbn zeta in H1, H2, H3. rewrite H1, H2, H3. unfold Py.len.
    rewrite !(filter_length_permutation _ _ _ Hperm). repeat split. }
  destruct (Hcounts env Horder eq_refl) as [r [Hr [Ht [Hs [Ha He]]]]].
  exists r. repeat split; try assumption;
    destruct (Hcounts (reordered env order) H eq_refl)
      as [r2 [Hr2 [Ht2 [Hs2 [Ha2 He2]]]]];
    rewrite Hr2 in H0; injection H0 as <-; congruence.
Qed.

Lemma report_counts_by_kind_witness :
  exists r,
    pool_result (parallel_upload three_tasks three_files 3) = Py.Returned r
    /\ success r = Py.len (filter is_created (submitted_results three_tasks three_files))
    /\ already_exists r
       = Py.len (filter is_already_exists (submitted_results three_tasks three_files))
    /\ errors r = Py.len (filter is_failed (submitted_results three_tasks three_files))
    /\ forall order r',
        Permutation order (seq 0 (List.length three_files)) ->
        pool_result (parallel_upload (reordered three_tasks order) three_files 3)
        = Py.Returned r' ->
        total r' = total r /\ success r' = success r
        /\ already_exists r' = already_exists r /\ errors r' = errors r.
Proof.
  apply (report_counts_by_kind three_tasks three_files 3).
  - lia.
  - unfold valid_order. cbn.
    apply (Permutation_cons_app [0%nat; 1%nat] [] 2%nat).
    reflexivity.
Defined.

(** The error details of the report are the failed results, in the
    order in which they completed, each as the pair of the identifier
    derived from its path and its message. *)
Theorem error_details_follow_completion_order
        (env : PoolEnv) (file_list : list string) (max_workers : Z) :
  0 < max_workers ->
  exists r,
    pool_result (parallel_upload env file_list max_workers) = Py.Returned r
    /\ error_details r
       = map error_detail (filter is_failed (completed_results env file_list))
    /\ Py.len (error_details r) = errors r.
Proof.
  intros Hworkers.
  unfold parallel_upload. replace (max_workers <=? 0) with false by lia.
  eexists. split; [reflexivity|]. cbn [error_details errors].
  fold (completed_results env file_list).
  destruct (fold_record_result_kinds (completed_results env file_list) empty_tally)
    as [_ [_ [H3 H4]]].
  cbn zeta in H3, H4. rewrite H3, H4. cbn [results_error error_count empty_tally app].
  split; [reflexivity|]. unfold Py.len. rewrite length_map. lia.
Qed.

Lemma error_details_follow_completion_order_witness :
  exists r,
    pool_result (parallel_upload three_tasks three_files 3) = Py.Returned r
    /\ error_details r
       = map error_detail (filter is_failed (completed_results three_tasks three_files))
    /\ Py.len (error_details r) = errors r.
Proof.
  apply (error_details_follow_completion_order three_tasks three_files 3).
  lia.
Defined.





(** ** The list of files *)

Lemma slice_bound_range (n i : Z) : 0 <= n -> 0 <= Py.slice_bound n i <= n.
Proof.
  intros Hn. unfold Py.slice_bound.
  destruct (i <? 0) eqn:Hi;
    [destruct (i + n <? 0) eqn:H1; [lia|]; destruct (n <? i + n) eqn:H2
    |destruct (i <? 0) eqn:H1; [lia|]; destruct (n <? i) eqn:H2]; lia.
Qed.

(** A slice is a run of consecutive elements of the list. *)
Lemma slice_segment {A : Type} (xs : list A) (lo hi : option Z) :
  exists before after, xs = (before ++ Py.slice xs lo hi ++ after)%list.
Proof.
  unfold Py.slice.
  set (l := match lo with Some i => Py.slice_bound (Py.len xs) i | None => 0 end).
  set (h := match hi with Some i => Py.slice_bound (Py.len xs) i | None => Py.len xs end).
  exists (firstn (Z.to_nat l) xs),
         (skipn (Z.to_nat (h - l)) (skipn (Z.to_nat l) xs)).
  now rewrite !firstn_skipn.
Qed.

Lemma slice_in_bounds {A : Type} (xs : list A) (lo hi : Z) :
  0 <= lo <= hi -> hi <= Py.len xs ->
  Py.slice xs (Some lo) (Some hi)
  = firstn (Z.to_nat (hi - lo)) (skipn (Z.to_nat lo) xs)
  /\ Py.len (Py.slice xs (Some lo) (Some hi)) = hi - lo.
Proof.
  intros Hlo Hhi. unfold Py.slice.
  assert (Hl : Py.slice_bound (Py.len xs) lo = lo).
  { unfold Py.slice_bound.
    replace (lo <? 0) with false by lia. replace (lo <? 0) with false by lia.
    replace (Py.len xs <? lo) with false by lia. reflexivity. }
  assert (Hh : Py.slice_bound (Py.len xs) hi = hi).
  { unfold Py.slice_bound.
    replace (hi <? 0) with false by lia. replace (hi <? 0) with false by lia.
    replace (Py.len xs <? hi) with false by lia. reflexivity. }
  cbn zeta. rewrite Hl, Hh. split; [reflexivity|].
  unfold Py.len in *. rewrite length_firstn, length_skipn. lia.
Qed.

Lemma slice_prefix {A : Type} (xs : list A) (m : Z) :
  0 <= m -> Py.slice xs None (Some m) = firstn (Z.to_nat m) xs.
Proof.
  intros Hm. unfold Py.slice, Py.slice_bound. cbn zeta.
  replace (m <? 0) with false by lia. replace (m <? 0) with false by lia.
  cbn [Z.to_nat skipn]. rewrite Z.sub_0_r.
  destruct (Py.len xs <? m) eqn:Hlen; [|reflexivity].
  unfold Py.len in *. rewrite Nat2Z.id.
  rewrite !firstn_all2 by lia. reflexivity.
Qed.

Lemma slice_drop_last {A : Type} (xs : list A) (m : Z) :
  m < 0 -> Py.slice xs None (Some m) = firstn (Z.to_nat (Py.len xs + m)) xs.
Proof.
  intros Hm. unfold Py.slice, Py.slice_bound. cbn zeta.
  replace (m <? 0) with true by lia.
  cbn [Z.to_nat skipn]. rewrite Z.sub_0_r.
  destruct (m + Py.len xs <? 0) eqn:Hneg.
  - replace (Z.to_nat (Py.len xs + m)) with 0%nat by lia. reflexivity.
  - replace (Py.len xs <? m + Py.len xs) with false by lia.
    now rewrite Z.add_comm.
Qed.

Lemma insert_sorted_permutation (x : string) (xs : list string) :
  Permutation (Py.insert_sorted x xs) (x :: xs).
Proof.
  induction xs as [|y ys IH]; cbn; [reflexivity|].
  destruct (String.leb x y); [reflexivity|].
  rewrite IH. apply perm_swap.
Qed.

Lemma insert_sorted_hdrel (a x : string) (xs : list string) :
  HdRel name_le a xs -> name_le a x -> HdRel name_le a (Py.insert_sorted x xs).
Proof.
  intros Hhd Hax. destruct xs as [|y ys]; cbn; [now constructor|].
  destruct (String.leb x y); constructor; [exact Hax|].
  now inversion Hhd.
Qed.

Lemma insert_sorted_sorted (x : string) (xs : list string) :
  Sorted name_le xs -> Sorted name_le (Py.insert_sorted x xs).
Proof.
  induction 1 as [|y ys Hsorted IH Hhd]; cbn.
  - repeat constructor.
  - destruct (String.leb x y) eqn:Hxy.
    + constructor; [now constructor|]. constructor. exact Hxy.
    + constructor; [exact IH|].
      apply insert_sorted_hdrel; [exact Hhd|].
      unfold name_le. destruct (String.leb_total x y); congruence.
Qed.

Lemma sorted_spec (xs : list string) :
  Permutation (Py.sorted xs) xs /\ Sorted name_le (Py.sorted xs).
Proof.
  unfold Py.sorted. induction xs as [|x xs [IHp IHs]]; cbn.
  - split; constructor.
  - split.
    + rewrite insert_sorted_permutation. now constructor.
    + now apply insert_sorted_sorted.
Qed.

(** Without bounds [get_json_files] returns every file of the
    directory, once, in increasing order of name. *)
Theorem get_json_files_all_sorted (w : World) :
  Permutation (get_json_files w None None None) (glob_json w)
  /\ Sorted name_le (get_json_files w None None None).
Proof. exact (sorted_spec (glob_json w)). Qed.

(** With any bounds the files returned are a run of consecutive files
    of the sorted directory listing: no file is invented, repeated or
    reordered, and no bound, however large or negative, is an error. *)
Theorem get_json_files_segment
        (w : World) (start_idx end_idx max_files : option Z) :
  exists before after,
    Py.sorted (glob_json w)
    = (before ++ get_json_files w start_idx end_idx max_files ++ after)%list.
Proof.
  assert (Hall : exists before after,
             Py.sorted (glob_json w) = (before ++ Py.sorted (glob_json w) ++ after)%list).
  { exists [], []. now rewrite app_nil_r. }
  unfold get_json_files.
  destruct start_idx as [s|], end_idx as [e|];
    try apply slice_segment;
    (destruct max_files as [m|]; [|exact Hall];
     destruct (m =? 0); [exact Hall | apply slice_segment]).
Qed.

(** With both a start and an end inside the listing, [0 <= start <= end
    <= number of files], the files returned are those at the positions
    [start .. end - 1], [end - start] of them, whatever the maximum. *)
Theorem get_json_files_range
        (w : World) (start_idx end_idx : Z) (max_files : option Z) :
  0 <= start_idx <= end_idx ->
  end_idx <= Py.len (glob_json w) ->
  get_json_files w (Some start_idx) (Some end_idx) max_files
  = firstn (Z.to_nat (end_idx - start_idx))
           (skipn (Z.to_nat start_idx) (Py.sorted (glob_json w)))
  /\ Py.len (get_json_files w (Some start_idx) (Some end_idx) max_files)
     = end_idx - start_idx.
Proof.
  intros Hs He. unfold get_json_files. apply slice_in_bounds; [exact Hs|].
  unfold Py.len in *.
  now rewrite (Permutation_length (proj1 (sorted_spec (glob_json w)))).
Qed.

Lemma get_json_files_range_witness :
  get_json_files three_files_world (Some 1) (Some 3) (Some 1)
  = firstn (Z.to_nat (3 - 1))
           (skipn (Z.to_nat 1) (Py.sorted (glob_json three_files_world)))
  /\ Py.len (get_json_files three_files_world (Some 1) (Some 3) (Some 1)) = 3 - 1.
Proof.
  apply (get_json_files_range three_files_world 1 3 (Some 1)).
  - lia.
  - cbn. lia.
Defined.

(** When the start or the end is missing, the one that is given is
    ignored and only the maximum counts: no maximum or a maximum of 0
    gives every file, a positive maximum [m] the first [m] files, a
    negative maximum all files but the last [-m]. *)
Theorem get_json_files_max
        (w : World) (start_idx end_idx max_files : option Z) :
  start_idx = None \/ end_idx = None ->
  get_json_files w start_idx end_idx max_files
  = match max_files with
    | None => Py.sorted (glob_json w)
    | Some m =>
        if m =? 0 then Py.sorted (glob_json w)
        else if 0 <? m then firstn (Z.to_nat m) (Py.sorted (glob_json w))
        else firstn (Z.to_nat (Py.len (glob_json w) + m)) (Py.sorted (glob_json w))
    end.
Proof.
  intros Hmissing.
  assert (Hmax : get_json_files w start_idx end_idx max_files
                 = match max_files with
                   | Some m => if m =? 0 then Py.sorted (glob_json w)
                               else Py.slice (Py.sorted (glob_json w)) None (Some m)
                   | None => Py.sorted (glob_json w)
                   end).
  { unfold get_json_files.
    destruct Hmissing as [-> | ->]; [|destruct start_idx]; reflexivity. }
  rewrite Hmax. destruct max_files as [m|]; [|reflexivity].
  destruct (m =? 0) eqn:Hz; [reflexivity|].
  destruct (0 <? m) eqn:Hpos.
  - apply slice_prefix. lia.
  - rewrite slice_drop_last by lia. unfold Py.len.
    now rewrite (Permutation_length (proj1 (sorted_spec (glob_json w)))).
Qed.

Lemma get_json_files_max_witness :
  get_json_files three_files_world (Some 1) None (Some (-1))
  = match Some (-1) with
    | None => Py.sorted (glob_json three_files_world)
    | Some m =>
        if m =? 0 then Py.sorted (glob_json three_files_world)
        else if 0 <? m
             then firstn (Z.to_nat m) (Py.sorted (glob_json three_files_world))
             else firstn (Z.to_nat (Py.len (glob_json three_files_world) + m))
                         (Py.sorted (glob_json three_files_world))
    end.
Proof.
  apply (get_json_files_max three_files_world (Some 1) None (Some (-1))).
  right. reflexivity.
Defined.

(** ** The identifier of an entity *)

Lemma basename_from_plain (name acc : string) :
  has_char "/" name = false -> Py.basename_from name acc = acc ++ name.
Proof.
  revert acc. induction name as [|c name IH]; intros acc Hno; cbn.
  - clear Hno. induction acc as [|a acc IHacc]; cbn; [reflexivity|].
    now rewrite <- IHacc.
  - cbn in Hno. apply orb_false_iff in Hno. destruct Hno as [Hc Hrest].
    rewrite Hc, (IH _ Hrest).
    clear. induction acc as [|a acc IHacc]; cbn; [reflexivity|].
    now rewrite IHacc.
Qed.

Lemma basename_from_directory (dir name acc : string) :
  Py.basename_from (dir ++ "/" ++ name) acc = Py.basename_from name "".
Proof.
  revert acc. induction dir as [|c dir IH]; intros acc.
  - reflexivity.
  - cbn [append Py.basename_from]. destruct (Ascii.eqb c "/"); apply IH.
Qed.

Lemma remove_json_suffix (name : string) :
  has_char "." name = false -> Py.remove_all ".json" (name ++ ".json") = name.
Proof.
  unfold Py.remove_all. induction name as [|c name IH]; intros Hno.
  - reflexivity.
  - cbn in Hno. apply orb_false_iff in Hno. destruct Hno as [Hc Hrest].
    cbn [append Py.remove_from String.prefix].
    destruct (ascii_dec "." c) as [<- | _]; [discriminate|].
    now rewrite (IH Hrest).
Qed.

(** The identifier of a file [<dir>/<name>.json] is [<name>], provided
    [<name>] contains neither a slash nor a dot. *)
Theorem entity_id_of_json_path (dir name : string) :
  has_char "/" name = false ->
  has_char "." name = false ->
  entity_id (dir ++ "/" ++ name ++ ".json") = name.
Proof.
  intros Hslash Hdot. unfold entity_id, Py.basename.
  rewrite basename_from_directory, basename_from_plain.
  - cbn [append]. now apply remove_json_suffix.
  - clear Hdot. induction name as [|c name IH]; [reflexivity|].
    cbn in *. apply orb_false_iff in Hslash. destruct Hslash as [Hc Hrest].
    rewrite Hc. cbn. now apply IH.
Qed.

Lemma entity_id_of_json_path_witness :
  entity_id ("../output/json" ++ "/" ++ "urn_sensor_001" ++ ".json")
  = "urn_sensor_001".
Proof.
  apply (entity_id_of_json_path "../output/json" "urn_sensor_001");
    reflexivity.
Defined.

(** ** The whole run, continued *)

Lemma main_after_probe (w : World) (args : Args) :
  value (check_orion_availability w) = true ->
  main w args
  = match get_json_files w (arg_start args) (arg_end args) (arg_max args) with
    | [] => (Exit 1, [EvGet (ORION_LD_URL ++ "/version")])
    | f :: rest =>
        let run := parallel_upload (pool w) (f :: rest) (arg_workers args) in
        (match pool_result run with
         | Py.Raised e => Uncaught e
         | Py.Returned results =>
             let elapsed_time := Py.float_sub (end_time w) (start_time w) in
             match Py.float_truediv (Py.float_of_int (total results)) elapsed_time with
             | Py.Raised e => Uncaught e
             | Py.Returned rate =>
                 Completed
                   {| sum_total := total results;
                      sum_created := success results;
                      sum_already_existed := already_exists results;
                      sum_errors := errors results;
                      sum_sample_errors :=
                        if 0 <? errors results
                        then Py.slice (error_details results) None (Some 5)
                        else [];
                      sum_more_errors :=
                        if (0 <? errors results) && (5 <? errors results)
                        then Some (errors results - 5) else None;
                      sum_elapsed := elapsed_time;
                      sum_rate := rate |}
             end
         end,
         EvGet (ORION_LD_URL ++ "/version") :: List.concat (pool_traces run))
    end.
Proof.
  intros Hprobe. unfold main.
  rewrite check_orion_availability_trace, Hprobe, bind_pair. cbn [negb].
  destruct (get_json_files w (arg_start args) (arg_end args) (arg_max args))
    as [|f rest]; [reflexivity|].
  cbn zeta. unfold emit. rewrite bind_pair.
  destruct (pool_result (parallel_upload (pool w) (f :: rest) (arg_workers args)))
    as [e | results].
  - cbn [value trace fst snd ret]. now rewrite app_nil_r.
  - destruct (Py.float_truediv (Py.float_of_int (total results))
                               (Py.float_sub (end_time w) (start_time w)));
      cbn [value trace fst snd ret]; now rewrite app_nil_r.
Qed.

(** When the broker is available but the selection of files is empty,
    the run stops after the probe with status 1: the pool is never
    started. *)
Theorem no_files_aborts_run (w : World) (args : Args) :
  value (check_orion_availability w) = true ->
  get_json_files w (arg_start args) (arg_end args) (arg_max args) = [] ->
  main w args = (Exit 1, [EvGet (ORION_LD_URL ++ "/version")])
  /\ exit_status (value (main w args)) = 1
  /\ posts (trace (main w args)) = 0%nat
  /\ loads (trace (main w args)) = 0%nat.
Proof.
  intros Hprobe Hfiles. rewrite (main_after_probe _ _ Hprobe), Hfiles.
  repeat split.
Qed.

Lemma no_files_aborts_run_witness :
  main empty_directory_world default_args
  = (Exit 1, [EvGet (ORION_LD_URL ++ "/version")])
  /\ exit_status (value (main empty_directory_world default_args)) = 1
  /\ posts (trace (main empty_directory_world default_args)) = 0%nat
  /\ loads (trace (main empty_directory_world default_args)) = 0%nat.
Proof.
  apply (no_files_aborts_run empty_directory_world default_args); reflexivity.
Defined.

(** A number of workers that is zero or negative is not rejected when
    the arguments are read: the probe is made, the files are listed,
    and the creation of the pool raises [ValueError]; the run ends with
    an uncaught exception, no file read and no request sent. *)
Theorem run_without_workers_raises (w : World) (args : Args) :
  value (check_orion_availability w) = true ->
  get_json_files w (arg_start args) (arg_end args) (arg_max args) <> [] ->
  arg_workers args <= 0 ->
  main w args
  = (Uncaught (Py.ValueError "max_workers must be greater than 0"),
     [EvGet (ORION_LD_URL ++ "/version")])
  /\ exit_status (value (main w args)) = 1
  /\ posts (trace (main w args)) = 0%nat
  /\ loads (trace (main w args)) = 0%nat.
Proof.
  intros Hprobe Hfiles Hworkers. rewrite (main_after_probe _ _ Hprobe).
  destruct (get_json_files w (arg_start args) (arg_end args) (arg_max args))
    as [|f rest]; [congruence|].
  cbn zeta. unfold parallel_upload.
  replace (arg_workers args <=? 0) with true by lia.
  repeat split.
Qed.

Lemma run_without_workers_raises_witness :
  main three_files_world
       {| arg_workers := 0; arg_start := None; arg_end := None;
          arg_max := None; arg_verbose := false |}
  = (Uncaught (Py.ValueError "max_workers must be greater than 0"),
     [EvGet (ORION_LD_URL ++ "/version")]).
Proof.
  apply (run_without_workers_raises three_files_world
           {| arg_workers := 0; arg_start := None; arg_end := None;
              arg_max := None; arg_verbose := false |}).
  - reflexivity.
  - cbn. discriminate.
  - cbn. lia.
Defined.

(** The report of a pool that has workers, in closed form. *)
Lemma parallel_upload_returns
      (env : PoolEnv) (file_list : list string) (max_workers : Z) :
  0 < max_workers ->
  parallel_upload env file_list max_workers
  = {| pool_result :=
         Py.Returned
           {| total := Py.len file_list;
              success := Py.len (filter is_created (completed_results env file_list));
              already_exists :=
                Py.len (filter is_already_exists (completed_results env file_list));
              errors := Py.len (filter is_failed (completed_results env file_list));
              error_details :=
                map error_detail (filter is_failed (completed_results env file_list)) |};
       pool_traces := map trace (submit_all env 0 file_list) |}.
Proof.
  intros Hworkers. unfold parallel_upload.
  replace (max_workers <=? 0) with false by lia.
  fold (completed_results env file_list).
  destruct (fold_record_result_kinds (completed_results env file_list) empty_tally)
    as [H1 [H2 [H3 H4]]].
  cbn zeta in H1, H2, H3, H4. rewrite H1, H2, H3, H4. reflexivity.
Qed.

(** Every result is of exactly one kind. *)
Lemma kinds_partition (rs : list result) :
  Py.len (filter is_created rs) + Py.len (filter is_already_exists rs)
    + Py.len (filter is_failed rs)
  = Py.len rs.
Proof.
  unfold Py.len. induction rs as [|[[p ok] m] rest IH]; [reflexivity|].
  unfold is_created, is_already_exists, is_failed, succeeded, message_of in *.
  cbn [filter fst snd].
  destruct ok; [destruct (String.eqb m "Created")|];
    cbn [andb negb List.length]; lia.
Qed.

Lemma submit_all_nth (env : PoolEnv) (file_list : list string) (a i : nat)
      (f : string) :
  nth_error file_list i = Some f ->
  nth_error (submit_all env a file_list) i
  = Some (upload_entity (task_env env (a + i)) f MAX_RETRIES).
Proof.
  revert a i. induction file_list as [|g rest IH]; intros a i Hnth.
  - destruct i; discriminate.
  - destruct i as [|i]; cbn [submit_all nth_error] in *.
    + injection Hnth as ->. now rewrite Nat.add_0_r.
    + rewrite (IH (S a) i Hnth).
      replace (S a + i)%nat with (a + S i)%nat by lia. reflexivity.
Qed.

(** C1. With a positive number of workers and whatever the order in
    which the futures complete, [parallel_upload] returns a report.
    Every file of the list is the object of exactly one task, run with
    the default budget, and that task yields one result; the loop sees
    these results, each once.  The report's [success], [already_exists]
    and [errors] are the numbers of tasks that returned "Created",
    succeeded otherwise, or failed; they add up to the number of files,
    which is [total]; there is one error detail per failed task; and
    for an empty list the report is all zeros. *)
Theorem report_counts_add_up
        (env : PoolEnv) (file_list : list string) (max_workers : Z) :
  0 < max_workers ->
  valid_order env (List.length file_list) ->
  exists r,
    parallel_upload env file_list max_workers
    = {| pool_result := Py.Returned r;
         pool_traces := map trace (submit_all env 0 file_list) |}
    /\ (forall i f,
          nth_error file_list i = Some f ->
          nth_error (submitted_results env file_list) i
          = Some (value (upload_entity (task_env env i) f MAX_RETRIES)))
    /\ List.length (submitted_results env file_list) = List.length file_list
    /\ Permutation (completed_results env file_list)
                   (submitted_results env file_list)
    /\ Permutation
         (map (fun f => path_of (value f))
              (as_completed (completion_order env) (submit_all env 0 file_list)))
         file_list
    /\ List.length (pool_traces (parallel_upload env file_list max_workers))
       = List.length file_list
    /\ total r = Py.len file_list
    /\ success r = Py.len (filter is_created (submitted_results env file_list))
    /\ already_exists r
       = Py.len (filter is_already_exists (submitted_results env file_list))
    /\ errors r = Py.len (filter is_failed (submitted_results env file_list))
    /\ success r + already_exists r + errors r = total r
    /\ 0 <= success r /\ 0 <= already_exists r /\ 0 <= errors r
    /\ error_details r
       = map error_detail (filter is_failed (completed_results env file_list))
    /\ Py.len (error_details r) = errors r
    /\ (file_list = [] -> r = zero_report).
Proof.
  intros Hworkers Horder.
  pose proof (parallel_upload_returns env file_list max_workers Hworkers) as Hrun.
  pose proof (completed_results_permutation env file_list Horder) as Hperm.
  pose proof (kinds_partition (submitted_results env file_list)) as Hkinds.
  assert (Hlen : List.length (submitted_results env file_list)
                 = List.length file_list).
  { unfold submitted_results. now rewrite length_map, submit_all_length. }
  eexists. split; [exact Hrun|]. rewrite Hrun.
  cbn [pool_traces total success already_exists errors error_details].
  unfold Py.len in *.
  rewrite !(filter_length_permutation _ _ _ Hperm).
  split.
  { intros i f Hnth. unfold submitted_results.
    rewrite nth_error_map, (submit_all_nth env file_list 0 i f Hnth).
    reflexivity. }
  split; [exact Hlen|]. split; [exact Hperm|].
  split.
  { rewrite <- (submit_all_paths env file_list 0) at 2.
    apply Permutation_map, as_completed_permutation.
    now rewrite submit_all_length. }
  split; [now rewrite length_map, submit_all_length|].
  split; [reflexivity|]. split; [reflexivity|]. split; [reflexivity|].
  split; [reflexivity|]. split; [lia|].
  split; [lia|]. split; [lia|]. split; [lia|].
  split; [reflexivity|].
  split; [now rewrite length_map, (filter_length_permutation _ _ _ Hperm)|].
  intros ->. unfold submitted_results in Hperm. cbn [submit_all map] in Hperm.
  apply Permutation_sym, Permutation_nil in Hperm. rewrite Hperm. reflexivity.
Qed.

Lemma report_counts_add_up_witness :
  exists r,
    pool_result (parallel_upload three_tasks three_files 3) = Py.Returned r
    /\ total r = 3
    /\ success r = Py.len (filter is_created (submitted_results three_tasks three_files))
    /\ already_exists r
       = Py.len (filter is_already_exists (submitted_results three_tasks three_files))
    /\ errors r = Py.len (filter is_failed (submitted_results three_tasks three_files))
    /\ success r + already_exists r + errors r = total r.
Proof.
  destruct (report_counts_add_up three_tasks three_files 3)
    as [r [Hrun [_ [_ [_ [_ [_ [Ht [Hs [Ha [He [Hsum _]]]]]]]]]]]].
  - lia.
  - unfold valid_order. cbn.
    apply (Permutation_cons_app [0%nat; 1%nat] [] 2%nat).
    reflexivity.
  - exists r. rewrite Hrun. cbn [pool_result].
    split; [reflexivity|]. split; [exact Ht|]. split; [exact Hs|].
    split; [exact Ha|]. split; [exact He | exact Hsum].
Defined.



(** The probe is a single GET of [/version], and it reports the broker
    available exactly when the answer has status 200 and a body that
    parses to a JSON object: an exception, another status, a body that
    is not JSON or a JSON value that is not an object all count as
    unavailable. *)
Theorem probe_verdict (w : World) :
  trace (check_orion_availability w) = [EvGet (ORION_LD_URL ++ "/version")]
  /\ (value (check_orion_availability w) = true <->
      exists members,
        version w = VersionResponse 200 (LoadReturns (JObject members))).
Proof.
  split.
  - now rewrite check_orion_availability_trace.
  - unfold check_orion_availability. split.
    + destruct (version w) as [status body | msg]; [|discriminate].
      destruct (status =? 200) eqn:Hs; [|discriminate].
      apply Z.eqb_eq in Hs. subst.
      destruct body as [msg | []]; try discriminate.
      intros _. now eexists.
    + intros [members ->]. reflexivity.
Qed.
